(** * MatchMyStack backend: resume extraction and matching engine

    A shallow embedding of
    - [app/services/matching_engine.py]  (scoring and ranking),
    - [app/services/embedding_engine.py] (cosine similarity),
    - [app/services/resume_parser.py]    (text extraction and field heuristics),
    - [app/api/routes/match.py]          (the upload route, up to its ranking),
    followed by the properties proved about them.

    Conventions of the embedding.
    - A Python [str] is the list of its code points ([list N]).  Length,
      slicing, [find], [in], [join], [replace] and [strip] are exact for every
      string.  [lower], and the regex classes [\w] and [\d], are tabulated for
      the code points below 256 (Latin-1) and leave the others alone.
    - A Python [float] is a binary64 number ([PrimFloat.float]); [min], [max]
      and the comparisons are written as the interpreter evaluates them.
    - A [dict] with a fixed set of keys read by the code is a record; a dict
      or set built by the code is a [gmap] or [gset].
    - A call that may raise returns a [result]. *)

From Stdlib Require Import ZArith NArith List Bool Lia Floats Ascii String.
From Stdlib.Strings Require Import Byte.
From Stdlib Require Import Sorted Permutation.
From stdpp Require Import gmap list.

Set Warnings "-inexact-float".

(* ===================================================================== *)
(** * Python values                                                       *)
(* ===================================================================== *)

(** ** Exceptions *)

Inductive exc : Type :=
| ValueError
| TypeError.

Inductive result (A : Type) : Type :=
| Ok (a : A)
| Raise (e : exc).
Arguments Ok {A} a.
Arguments Raise {A} e.

(** ** Strings *)

Module Str.

Local Open Scope N_scope.

(** A Python [str]: the sequence of its code points. *)
Definition str := list N.

(** A literal of the source, written as a Rocq string of Latin-1 characters. *)
Definition lit (s : string) : str := map N_of_ascii (list_ascii_of_string s).

Definition between (lo hi c : N) : bool := (lo <=? c) && (c <=? hi).

(** [str.isspace] of one character, also the regex class [\s]:
    the Unicode white-space characters and U+001C..U+001F. *)
Definition isspace (c : N) : bool :=
  between 9 13 c || between 28 32 c || (c =? 133) || (c =? 160)
  || (c =? 5760) || between 8192 8202 c || (c =? 8232) || (c =? 8233)
  || (c =? 8239) || (c =? 8287) || (c =? 12288).

(** The regex class [\d] (below 256: the ten ASCII digits). *)
Definition isdigit (c : N) : bool := between 48 57 c.

(** The regex class [\w] (below 256: ASCII letters, digits, underscore and
    the Latin-1 letters and numerics). *)
Definition isword (c : N) : bool :=
  between 48 57 c || between 65 90 c || (c =? 95) || between 97 122 c
  || (c =? 170) || (c =? 178) || (c =? 179) || (c =? 181) || (c =? 185)
  || (c =? 186) || between 188 190 c
  || (between 192 255 c && negb (c =? 215) && negb (c =? 247)).

(** [str.lower] of one character (below 256: A-Z and the upper-case Latin-1
    letters move up by 32). *)
Definition lower_cp (c : N) : N :=
  if between 65 90 c || (between 192 222 c && negb (c =? 215))
  then c + 32 else c.

(** [s.lower()] *)
Definition lower (s : str) : str := map lower_cp s.

(** [s.lstrip()], [s.rstrip()], [s.strip()] *)
Fixpoint lstrip (s : str) : str :=
  match s with
  | c :: t => if isspace c then lstrip t else s
  | [] => []
  end.

Definition rstrip (s : str) : str := rev (lstrip (rev s)).

Definition strip (s : str) : str := rstrip (lstrip s).

(** [s.replace(c, '')] for a one-character [c] *)
Definition remove_char (c : N) (s : str) : str :=
  filter (fun x => negb (x =? c)) s.

(** [s.startswith(p)], returning what follows the prefix *)
Fixpoint strip_prefix (p s : str) : option str :=
  match p, s with
  | [], _ => Some s
  | a :: p', b :: s' => if a =? b then strip_prefix p' s' else None
  | _ :: _, [] => None
  end.

Definition startswith (p s : str) : bool :=
  match strip_prefix p s with Some _ => true | None => false end.

(** [s.find(p)]: the least index at which [p] occurs, [None] for -1 *)
Fixpoint find (p s : str) : option nat :=
  if startswith p s then Some 0%nat
  else match s with
       | [] => None
       | _ :: t => option_map S (find p t)
       end.

(** [p in s] *)
Definition contains (p s : str) : bool :=
  match find p s with Some _ => true | None => false end.

(** [s[a:b]] for indices [0 <= a], [0 <= b] *)
Definition slice (a b : nat) (s : str) : str := firstn (b - a) (skipn a s).

(** [sep.join(parts)] *)
Fixpoint join (sep : str) (parts : list str) : str :=
  match parts with
  | [] => []
  | [p] => p
  | p :: ps => p ++ sep ++ join sep ps
  end.

(** [int(s)] for a string of ASCII digits *)
Definition digit_value (c : N) : N := c - 48.

Definition int_of_digits (s : str) : N :=
  fold_left (fun acc c => 10 * acc + digit_value c) s 0.

End Str.
Export Str.

(** ** Floats *)

Module Flt.

Local Open Scope float_scope.

(** [min(a, b)] and [max(a, b)] of the interpreter: the first argument is kept
    unless the second compares strictly below (above) it. *)
Definition py_min (a b : float) : float := if b <? a then b else a.
Definition py_max (a b : float) : float := if a <? b then b else a.

(** [float(n)] for a length or a count; exact below 2^53, and the conversion
    itself is the hardware one below 2^63. *)
Definition of_nat (n : nat) : float := of_uint63 (Uint63.of_Z (Z.of_nat n)).

(** [float(z)] for an integer of the 63-bit range. *)
Definition of_Z (z : Z) : float :=
  if (z <? 0)%Z then - of_uint63 (Uint63.of_Z (- z)) else of_uint63 (Uint63.of_Z z).

(** [x == x]: false exactly for a NaN. *)
Definition ordered (x : float) : bool := x =? x.

End Flt.
Export Flt.

(** ** The order of the floats *)

Module FloatOrder.

(** A non-NaN binary float as a triple of integers whose lexicographic order
    is the order of the floats: the class (infinite, finite or zero, by sign),
    then exponent and mantissa (negated for negative numbers). *)
Definition code (f : spec_float) : Z * Z * Z :=
  match f with
  | S754_nan => (0, 0, 0)%Z
  | S754_zero _ => (0, 0, 0)%Z
  | S754_infinity s => if s then (-2, 0, 0)%Z else (2, 0, 0)%Z
  | S754_finite s m e => if s then (-1, - e, Z.neg m)%Z else (1, e, Z.pos m)%Z
  end.

Definition lex_compare (a b : Z * Z * Z) : comparison :=
  match (a.1.1 ?= b.1.1)%Z with
  | Eq => match (a.1.2 ?= b.1.2)%Z with
          | Eq => (a.2 ?= b.2)%Z
          | c => c
          end
  | c => c
  end.

Definition fcode (x : float) : Z * Z * Z := code (Prim2SF x).

(** The strict lexicographic order on codes. *)
Definition lex_lt (a b : Z * Z * Z) : Prop :=
  (a.1.1 < b.1.1 \/ (a.1.1 = b.1.1 /\ (a.1.2 < b.1.2 \/ (a.1.2 = b.1.2 /\ a.2 < b.2))))%Z.

End FloatOrder.
Export FloatOrder.

(* ===================================================================== *)
(** * app/services/resume_parser.py                                       *)
(* ===================================================================== *)

Module ResumeParser.

Local Open Scope nat_scope.

(** ** Decoding bytes as text *)

Definition is_continuation (b : N) : bool := between 128 191 b.

(** [data.decode("utf-8", errors="ignore")] on the byte values.  A
    well-formed sequence gives its code point.  An invalid start byte is
    dropped alone; a sequence broken by a byte that cannot continue it loses
    the bytes before that byte; a sequence cut by the end of the data is
    dropped whole. *)
Fixpoint utf8_ignore (bs : list N) : str :=
  match bs with
  | [] => []
  | b :: t =>
      if (b <? 128)%N then b :: utf8_ignore t
      else if (b <? 194)%N then utf8_ignore t
      else if (b <? 224)%N then
        match t with
        | [] => []
        | b2 :: t2 =>
            if is_continuation b2
            then ((b - 192) * 64 + (b2 - 128))%N :: utf8_ignore t2
            else utf8_ignore t
        end
      else if (b <? 240)%N then
        match t with
        | [] => []
        | b2 :: t2 =>
            if negb (is_continuation b2)
               || (if (b2 <? 160)%N then (b =? 224)%N else (b =? 237)%N)
            then utf8_ignore t
            else
              match t2 with
              | [] => []
              | b3 :: t3 =>
                  if is_continuation b3
                  then ((b - 224) * 4096 + (b2 - 128) * 64 + (b3 - 128))%N
                       :: utf8_ignore t3
                  else utf8_ignore t2
              end
        end
      else if (b <? 245)%N then
        match t with
        | [] => []
        | b2 :: t2 =>
            if negb (is_continuation b2)
               || (if (b2 <? 144)%N then (b =? 240)%N else (b =? 244)%N)
            then utf8_ignore t
            else
              match t2 with
              | [] => []
              | b3 :: t3 =>
                  if negb (is_continuation b3) then utf8_ignore t2
                  else
                    match t3 with
                    | [] => []
                    | b4 :: t4 =>
                        if is_continuation b4
                        then ((b - 240) * 262144 + (b2 - 128) * 4096
                              + (b3 - 128) * 64 + (b4 - 128))%N
                             :: utf8_ignore t4
                        else utf8_ignore t3
                    end
              end
        end
      else utf8_ignore t
  end.

(** A Python [bytes] value. *)
Definition bytes := list byte.

Definition decode_ignore (data : bytes) : str := utf8_ignore (map Byte.to_N data).

(** ** The PDF libraries *)

(** What one page gives: [extract_text()] returns a string or [None], or
    raises. *)
Inductive page_outcome : Type :=
| PageText (text : option str)
| PageRaises.

(** What a whole [try] block around a library gives: the document opens and
    its pages are visited, or an exception with message [str(e)] leaves the
    block (a failed local import included). *)
Inductive open_outcome : Type :=
| Opened (pages : list page_outcome)
| OpenRaises (message : str).

(** The two external libraries, as functions of the bytes they are given. *)
Record PdfLibraries : Type := {
  pdfplumber_open : bytes -> open_outcome;
  pypdf2_reader : bytes -> open_outcome
}.

(** The library tags: [self.parsing_library] is one of the first two or
    ["none"]; the others are returned as [parsing_library_used]. *)
Inductive Tag : Type :=
| pdfplumber      (* "pdfplumber" *)
| PyPDF2          (* "PyPDF2" *)
| pypdf_fallback  (* "pypdf_fallback" *)
| text_fallback   (* "text_fallback" *)
| text_input      (* "text_input" *)
| none.           (* "none" *)

#[global] Instance Tag_eq_dec : EqDecision Tag.
Proof. solve_decision. Defined.

(** The values of [parsing_note]. *)
Inductive Note : Type :=
| empty_input                    (* "empty_input" *)
| pdfminer_failed_used_fallback  (* "pdfminer_failed_used_fallback" *)
| text_fallback_note             (* "text_fallback" *)
| no_text_extracted.             (* "no_text_extracted" *)

#[global] Instance Note_eq_dec : EqDecision Note.
Proof. solve_decision. Defined.

Definition MAX_PDF_BYTES : N := 5 * 1024 * 1024.

(** [data[:n]] for a large bound [n] *)
Fixpoint prefix_N {A : Type} (n : N) (l : list A) : list A :=
  match l with
  | [] => []
  | x :: t => if (n =? 0)%N then [] else x :: prefix_N (N.pred n) t
  end.

(** The loop over the pages: a page that raises, or has no text, adds
    nothing. *)
Definition page_texts (pages : list page_outcome) : list str :=
  flat_map (fun p => match p with
                     | PageText (Some (c :: t)) => [c :: t]
                     | _ => []
                     end) pages.

(** ["\n".join(parts).strip()] *)
Definition joined_text (pages : list page_outcome) : str :=
  strip (join [10%N] (page_texts pages)).

(** The test on the message of a pdfplumber exception. *)
Definition is_pdfminer_error (message : str) : bool :=
  let error_str := lower message in
  contains (lit "no /root") error_str
  || contains (lit "pdfminer") error_str
  || contains (lit "pdf structure") error_str.

(** STRATEGY 3: the bytes read as UTF-8 text. *)
Definition text_stage (pdf_bytes : bytes) (parsing_note : option Note)
  : str * Tag * option Note :=
  let decoded := strip (decode_ignore pdf_bytes) in
  match decoded with
  | _ :: _ =>
      if 30 <? length decoded
      then (decoded, text_fallback,
            Some (match parsing_note with Some n => n | None => text_fallback_note end))
      else ([], none, Some no_text_extracted)
  | [] => ([], none, Some no_text_extracted)
  end.

(** STRATEGY 2: PyPDF2, when it is the library in use or pdfplumber failed
    on the structure of the document. *)
Definition pypdf_stage (libs : PdfLibraries) (parsing_library : Tag)
    (pdf_bytes : bytes) (parsing_note : option Note) : str * Tag * option Note :=
  if bool_decide (parsing_library = PyPDF2)
     || bool_decide (parsing_note = Some pdfminer_failed_used_fallback)
  then
    match pypdf2_reader libs pdf_bytes with
    | Opened pages =>
        match joined_text pages with
        | c :: t =>
            if bool_decide (parsing_note = Some pdfminer_failed_used_fallback)
            then (c :: t, pypdf_fallback, parsing_note)
            else (c :: t, PyPDF2, None)
        | [] => text_stage pdf_bytes parsing_note
        end
    | OpenRaises _ => text_stage pdf_bytes parsing_note
    end
  else text_stage pdf_bytes parsing_note.

(** The bytes the decoders are given: at most [MAX_PDF_BYTES] of them. *)
Definition capped (pdf_bytes : bytes) : bytes :=
  if (MAX_PDF_BYTES <? N.of_nat (length pdf_bytes))%N
  then prefix_N MAX_PDF_BYTES pdf_bytes else pdf_bytes.

(** [extract_text_from_pdf], for a parser whose [parsing_library] is given. *)
Definition extract_text_from_pdf (libs : PdfLibraries) (parsing_library : Tag)
    (pdf_bytes : bytes) : str * Tag * option Note :=
  match pdf_bytes with
  | [] => ([], none, Some empty_input)
  | _ :: _ =>
      let pdf_bytes := capped pdf_bytes in
      (* STRATEGY 1: pdfplumber, if it is the library in use *)
      if bool_decide (parsing_library = pdfplumber) then
        match pdfplumber_open libs pdf_bytes with
        | Opened pages =>
            match joined_text pages with
            | c :: t => (c :: t, pdfplumber, None)
            | [] => pypdf_stage libs parsing_library pdf_bytes None
            end
        | OpenRaises message =>
            pypdf_stage libs parsing_library pdf_bytes
              (if is_pdfminer_error message
               then Some pdfminer_failed_used_fallback else None)
        end
      else pypdf_stage libs parsing_library pdf_bytes None
  end.

(** ** Experience years *)

(** The pattern
    [(\d{1,2})\+?\s*(?:years|yrs)\s+(?:of\s+)?experience],
    matched at the head of [s] as the backtracking matcher does: each piece
    tries its alternatives in the order of the pattern and hands the rest of
    the text to the pieces after it.  A match gives the text of group 1 and
    what follows the match. *)

(** [\s*] followed by [k]: the longest run of spaces first. *)
Fixpoint spaces_then {A : Type} (k : str -> option A) (s : str) : option A :=
  match s with
  | c :: t =>
      if isspace c
      then match spaces_then k t with
           | Some r => Some r
           | None => k s
           end
      else k s
  | [] => k []
  end.

(** [\s+] followed by [k] *)
Definition spaces1_then {A : Type} (k : str -> option A) (s : str) : option A :=
  match s with
  | c :: t => if isspace c then spaces_then k t else None
  | [] => None
  end.

(** A literal followed by [k] *)
Definition lit_then {A : Type} (w : str) (k : str -> option A) (s : str) : option A :=
  match strip_prefix w s with
  | Some rest => k rest
  | None => None
  end.

(** [p|q]: the first alternative that leads to a match *)
Definition orelse {A : Type} (p q : option A) : option A :=
  match p with
  | Some r => Some r
  | None => q
  end.

(** [(?:of\s+)?experience] *)
Definition of_experience (s : str) : option str :=
  orelse (lit_then (lit "of") (spaces1_then (lit_then (lit "experience") Some)) s)
         (lit_then (lit "experience") Some s).

(** [\+?\s*(?:years|yrs)\s+(?:of\s+)?experience] *)
Definition years_tail (s : str) : option str :=
  let unit_then s :=
    orelse (lit_then (lit "years") (spaces1_then of_experience) s)
           (lit_then (lit "yrs") (spaces1_then of_experience) s) in
  orelse (lit_then (lit "+") (spaces_then unit_then) s)
         (spaces_then unit_then s).

(** The whole pattern at the head of [s]: two digits are tried before one. *)
Definition years_match (s : str) : option (str * str) :=
  match s with
  | d1 :: t =>
      if isdigit d1 then
        orelse
          (match t with
           | d2 :: t' =>
               if isdigit d2
               then option_map (fun rest => ([d1; d2], rest)) (years_tail t')
               else None
           | [] => None
           end)
          (option_map (fun rest => ([d1], rest)) (years_tail t))
      else None
  | [] => None
  end.

(** [re.findall]: the matches from left to right, none overlapping another.
    [skip] counts the characters of the last match still to be passed. *)
Fixpoint findall_from (skip : nat) (s : str) : list str :=
  match s with
  | [] => []
  | _ :: t =>
      match skip with
      | S skip' => findall_from skip' t
      | O =>
          match years_match s with
          | Some (group1, rest) =>
              group1 :: findall_from (length s - length rest - 1) t
          | None => findall_from 0 t
          end
      end
  end.

Definition findall_years (s : str) : list str := findall_from 0 s.

(** [extract_experience_years] *)
Definition extract_experience_years (text : str) : N :=
  let matches := findall_years (lower text) in
  match matches with
  | [] => 0%N
  | _ => fold_right N.max 0%N (map int_of_digits matches)
  end.

(** ** Competition achievements *)

Definition HACKATHON_KEYWORDS : list str :=
  [lit "hackathon"; lit "devpost"; lit "mlh"; lit "challenge"; lit "competition"].

Inductive Placement : Type :=
| first
| second
| third
| finalist
| participant.

(** The [wins] counters. *)
Record Wins : Type := {
  n_first : nat;
  n_second : nat;
  n_third : nat;
  n_finalist : nat;
  n_participant : nat
}.

(** [wins[placement] += 1] *)
Definition bump (placement : Placement) (wins : Wins) : Wins :=
  match placement with
  | first => {| n_first := S (n_first wins); n_second := n_second wins;
                n_third := n_third wins; n_finalist := n_finalist wins;
                n_participant := n_participant wins |}
  | second => {| n_first := n_first wins; n_second := S (n_second wins);
                 n_third := n_third wins; n_finalist := n_finalist wins;
                 n_participant := n_participant wins |}
  | third => {| n_first := n_first wins; n_second := n_second wins;
                n_third := S (n_third wins); n_finalist := n_finalist wins;
                n_participant := n_participant wins |}
  | finalist => {| n_first := n_first wins; n_second := n_second wins;
                   n_third := n_third wins; n_finalist := S (n_finalist wins);
                   n_participant := n_participant wins |}
  | participant => {| n_first := n_first wins; n_second := n_second wins;
                      n_third := n_third wins; n_finalist := n_finalist wins;
                      n_participant := S (n_participant wins) |}
  end.

(** One entry of [found]. *)
Record Achievement : Type := {
  context : str;
  placement : Placement
}.

(** The returned dict. *)
Record Hackathons : Type := {
  total_hackathons : nat;
  achievements : list Achievement;
  wins_breakdown : Wins;
  hackathon_score : nat;
  has_hackathon_experience : bool
}.

(** [\b]: a word character on exactly one side. *)
Definition is_word_opt (c : option N) : bool :=
  match c with Some x => isword x | None => false end.

Definition boundary (before : option N) (after : str) : bool :=
  xorb (is_word_opt before) (is_word_opt (head after)).

(** [\bw\b] at the head of [s], the character before [s] being [before] *)
Definition word_here (before : option N) (s : str) (w : str) : bool :=
  boundary before s
  && match strip_prefix w s with
     | Some rest => boundary (match last w with Some c => Some c | None => before end) rest
     | None => false
     end.

(** [re.search(r"\b(w1|w2|...)\b", s)] as a truth value *)
Fixpoint search_from (words : list str) (before : option N) (s : str) : bool :=
  existsb (word_here before s) words
  || match s with
     | [] => false
     | c :: t => search_from words (Some c) t
     end.

Definition search_words (words : list str) (s : str) : bool :=
  search_from words None s.

Definition FIRST_WORDS : list str :=
  [lit "winner"; lit "1st"; lit "first"; lit "champion"; lit "gold"].
Definition SECOND_WORDS : list str :=
  [lit "runner up"; lit "runner-up"; lit "2nd"; lit "second"; lit "silver"].
Definition THIRD_WORDS : list str :=
  [lit "3rd"; lit "third"; lit "bronze"].

(** The placement read off a snippet. *)
Definition placement_of (snippet : str) : Placement :=
  if search_words FIRST_WORDS snippet then first
  else if search_words SECOND_WORDS snippet then second
  else if search_words THIRD_WORDS snippet then third
  else participant.

(** [text[start:end]] around the first occurrence of the keyword at [idx]. *)
Definition snippet_at (text : str) (idx : nat) : str :=
  let start := idx - 120 in
  let end_ := Nat.min (length text) (idx + 120) in
  slice start end_ text.

(** One turn of the loop over the keywords, on the pair [(found, wins)]. *)
Definition hackathon_step (text : str) (st : list Achievement * Wins) (kw : str)
  : list Achievement * Wins :=
  let (found, wins) := st in
  match find kw (lower text) with
  | Some idx =>
      let snippet := snippet_at text idx in
      let placement := placement_of snippet in
      (found ++ [{| context := firstn 200 snippet; placement := placement |}],
       bump placement wins)
  | None => st
  end.

Definition no_wins : Wins :=
  {| n_first := 0; n_second := 0; n_third := 0; n_finalist := 0; n_participant := 0 |}.

(** [extract_hackathon_wins] *)
Definition extract_hackathon_wins (text : str) : Hackathons :=
  let (found, wins) := fold_left (hackathon_step text) HACKATHON_KEYWORDS ([], no_wins) in
  let score := n_first wins * 10 + n_second wins * 7 + n_third wins * 5
               + n_finalist wins * 3 + n_participant wins in
  {| total_hackathons := length found;
     achievements := found;
     wins_breakdown := wins;
     hackathon_score := score;
     has_hackathon_experience := 0 <? length found |}.

(** ** The main parse function *)

(** [extract_contact_info] returns four optional strings. *)
Record Contact : Type := {
  email : option str;
  phone : option str;
  github : option str;
  linkedin : option str
}.

(** The extractors whose patterns no property below depends on, taken as
    functions of the text. *)
Record Extractors : Type := {
  extract_contact_info : str -> Contact;
  extract_name : str -> option str;
  extract_skills : str -> list (str * list str);
  extract_roles : str -> list str;
  extract_education : str -> list (str * str);
  extract_work_experience : str -> list str
}.

(** [a < b] on strings, by code points. *)
Fixpoint str_ltb (a b : str) : bool :=
  match a, b with
  | [], [] => false
  | [], _ :: _ => true
  | _ :: _, [] => false
  | x :: a', y :: b' => (x <? y)%N || ((x =? y)%N && str_ltb a' b')
  end.

Fixpoint insert_sorted (x : str) (l : list str) : list str :=
  match l with
  | [] => [x]
  | y :: l' =>
      if str_ltb x y then x :: l
      else if str_ltb y x then y :: insert_sorted x l'
      else l
  end.

(** [sorted({s for s in l})] *)
Definition sorted_set (l : list str) : list str := fold_right insert_sorted [] l.

(** The profile dict of a successful parse. *)
Record Profile : Type := {
  name : str;
  contact : Contact;
  skills_by_category : list (str * list str);
  all_skills : list str;
  p_roles : list str;
  p_experience_years : N;
  education : list (str * str);
  work_experience : list str;
  p_hackathons : Hackathons;
  raw_text_preview : str;
  raw_text : str;
  total_text_length : nat;
  parsing_library : Tag;
  parsing_note : option Note
}.

(** The dict returned on failure. *)
Record Failure : Type := {
  error : str;
  f_raw_text : str;
  f_parsing_library : Tag;
  f_parsing_note : option Note
}.

Inductive Parsed : Type :=
| ParseError (f : Failure)
| Parsed_ok (p : Profile).

(** The first half of [parse_resume]: the stripped text to parse, with the
    library tag and the note that go with it. *)
Definition gathered_text (libs : PdfLibraries) (self_library : Tag)
    (pdf_bytes : option bytes) (text : option str) : str * Tag * option Note :=
  let '(raw_text, parsing_library, parsing_note) :=
    match pdf_bytes with
    | Some (b :: bs) => extract_text_from_pdf libs self_library (b :: bs)
    | _ => ([], none, None)
    end in
  let '(raw_text, parsing_library) :=
    match raw_text, text with
    | [], Some (c :: t) => (c :: t, text_input)
    | _, _ => (raw_text, parsing_library)
    end in
  (strip raw_text, parsing_library, parsing_note).

(** [parse_resume(pdf_bytes, text)]; an argument left out is [None]. *)
Definition parse_resume (libs : PdfLibraries) (self_library : Tag) (ex : Extractors)
    (pdf_bytes : option bytes) (text : option str) : Parsed :=
  let '(raw_text, parsing_library, parsing_note) :=
    gathered_text libs self_library pdf_bytes text in
  if length raw_text <? 40 then
    ParseError {| error := lit "No meaningful text to parse";
                  f_raw_text := firstn 500 raw_text;
                  f_parsing_library := parsing_library;
                  f_parsing_note := parsing_note |}
  else
    let skills_by_category := extract_skills ex raw_text in
    Parsed_ok {|
      name := match extract_name ex raw_text with Some n => n | None => [] end;
      contact := extract_contact_info ex raw_text;
      skills_by_category := skills_by_category;
      all_skills := sorted_set (flat_map snd skills_by_category);
      p_roles := extract_roles ex raw_text;
      p_experience_years := extract_experience_years raw_text;
      education := extract_education ex raw_text;
      work_experience := extract_work_experience ex raw_text;
      p_hackathons := extract_hackathon_wins raw_text;
      raw_text_preview := firstn 500 raw_text;
      raw_text := raw_text;
      total_text_length := length raw_text;
      parsing_library := parsing_library;
      parsing_note := parsing_note |}.

(** ** Words for the properties of the extraction *)

(** The text a library extracts from the bytes; empty when it raises. *)
Definition yields (o : open_outcome) : str :=
  match o with
  | Opened pages => joined_text pages
  | OpenRaises _ => []
  end.

(** The library raised an error of the pdfminer class. *)
Definition structural_failure (o : open_outcome) : bool :=
  match o with
  | Opened _ => false
  | OpenRaises message => is_pdfminer_error message
  end.

#[global] Instance Placement_eq_dec : EqDecision Placement.
Proof. solve_decision. Defined.

(** The keywords that occur in the lowered text, in the order of
    [HACKATHON_KEYWORDS]. *)
Definition keyword_hits (text : str) : list str :=
  filter (fun kw => contains kw (lower text) = true) HACKATHON_KEYWORDS.

(** The window around the first occurrence of [kw]:
    [text[max(0, idx-120) : min(len(text), idx+120)]]. *)
Definition window (text kw : str) : str :=
  match find kw (lower text) with
  | Some idx => slice (idx - 120) (Nat.min (length text) (idx + 120)) text
  | None => []
  end.

(** The entry of [found] for a keyword that occurs. *)
Definition entry_of (text kw : str) : Achievement :=
  {| context := firstn 200 (window text kw); placement := placement_of (window text kw) |}.

(** The entries of [found] placed in a tier. *)
Definition placed (tier : Placement) (found : list Achievement) : nat :=
  length (filter (fun a => placement a = tier) found).

(** The last character of [s], or [before] when [s] is empty. *)
Definition last_or (before : option N) (s : str) : option N :=
  match last s with Some c => Some c | None => before end.

(** Some word of [words] stands in [s] with a word boundary on each side:
    what [re.search(r"\b(w1|w2|...)\b", s)] looks for. *)
Definition stands_in (words : list str) (s : str) : Prop :=
  exists pre w post,
    s = pre ++ w ++ post /\ In w words
    /\ boundary (last pre) (w ++ post) = true
    /\ boundary (last (pre ++ w)) post = true.





(** What [k] is given starts with no space. *)
Definition no_space_head (s : str) : Prop :=
  match s with
  | c :: _ => isspace c = false
  | [] => True
  end.



(** The parse failed. *)
Definition is_error (r : Parsed) : bool :=
  match r with ParseError _ => true | Parsed_ok _ => false end.

(** ** The fallback chain as the spec words it *)

(** The order of the decoders as the spec words it: with pdfplumber in use,
    when it finds no text and PyPDF2 finds some, the text of PyPDF2 is
    returned. *)
Definition stops_at_first_nonempty : Prop :=
  forall libs b bs,
    let d := capped (b :: bs) in
    yields (pdfplumber_open libs d) = [] ->
    yields (pypdf2_reader libs d) <> [] ->
    (extract_text_from_pdf libs pdfplumber (b :: bs)).1.1 = yields (pypdf2_reader libs d).

(** The threshold as the spec's test words it: when pdfplumber gives no
    text and the decoded text has 30 characters or more, the source is a
    fallback tag. *)
Definition fallback_from_30 : Prop :=
  forall libs lib b bs,
    let d := capped (b :: bs) in
    yields (pdfplumber_open libs d) = [] ->
    30 <= length (strip (decode_ignore d)) ->
    In (extract_text_from_pdf libs lib (b :: bs)).1.2
       [PyPDF2; pypdf_fallback; text_fallback].

(** ** Sample inputs *)

(** A scanned document: pdfplumber opens it and finds no text on its page,
    PyPDF2 reads a line of text. *)
Definition scanned_libs : PdfLibraries := {|
  pdfplumber_open := fun _ => Opened [PageText None];
  pypdf2_reader := fun _ => Opened [PageText (Some (lit "Jane Doe"))]
|}.

(** Libraries that both fail on the bytes. *)
Definition failing_libs : PdfLibraries := {|
  pdfplumber_open := fun _ => OpenRaises (lit "not a pdf");
  pypdf2_reader := fun _ => OpenRaises (lit "EOF marker not found")
|}.

(** The bytes of an ASCII text. *)
Definition ascii_bytes (s : string) : bytes := list_byte_of_string s.

(** Extractors that find nothing. *)
Definition no_extractors : Extractors := {|
  extract_contact_info := fun _ => {| email := None; phone := None; github := None; linkedin := None |};
  extract_name := fun _ => None;
  extract_skills := fun _ => [];
  extract_roles := fun _ => [];
  extract_education := fun _ => [];
  extract_work_experience := fun _ => []
|}.

End ResumeParser.

(* ===================================================================== *)
(** * app/services/embedding_engine.py                                    *)
(* ===================================================================== *)

Module EmbeddingEngine.

Local Open Scope float_scope.

(** [np.dot] of two one-dimensional float64 arrays, accumulated from the
    left.  NumPy may add the products in another order; the two results then
    differ by rounding only. *)
Fixpoint dot_from (acc : float) (a b : list float) : float :=
  match a, b with
  | x :: a', y :: b' => dot_from (acc + x * y) a' b'
  | _, _ => acc
  end.

(** [np.dot(vec1, vec2)]: arrays of different lengths are "not aligned". *)
Definition np_dot (a b : list float) : result float :=
  if Nat.eqb (length a) (length b) then Ok (dot_from 0 a b) else Raise ValueError.

(** [np.linalg.norm(vec)] of a one-dimensional array: [sqrt(vec.dot(vec))]. *)
Definition np_norm (a : list float) : float := sqrt (dot_from 0 a a).

(** [EmbeddingEngine.cosine_similarity] *)
Definition cosine_similarity (vec1 vec2 : list float) : result float :=
  match np_dot vec1 vec2 with
  | Raise e => Raise e
  | Ok dot_product =>
      let norm1 := np_norm vec1 in
      let norm2 := np_norm vec2 in
      (* Avoid division by zero *)
      if (norm1 =? 0) || (norm2 =? 0) then Ok 0
      else Ok (dot_product / (norm1 * norm2))
  end.

(** ** Words for the properties *)

(** A vector all of whose components are zero ([0.0] or [-0.0]). *)
Definition zero_vector (v : list float) : Prop := Forall (fun x => (x =? 0) = true) v.

(** The spec's statement: no exception, and 0.0 for a vector of zero
    magnitude. *)
Definition cosine_as_stated : Prop :=
  forall a b,
    (exists r, cosine_similarity a b = Ok r)
    /\ ((np_norm a =? 0) = true \/ (np_norm b =? 0) = true -> cosine_similarity a b = Ok 0).

End EmbeddingEngine.

(* ===================================================================== *)
(** * app/services/matching_engine.py                                     *)
(* ===================================================================== *)

Module MatchingEngine.

Local Open Scope float_scope.

(** The module-level [normalize_skill], the one [calculate_skill_overlap]
    calls: lower-case, trim, then drop every period, space, hyphen and
    underscore. *)
Definition normalize_skill (skill : str) : str :=
  remove_char 95 (remove_char 45 (remove_char 32 (remove_char 46
    (strip (lower skill))))).

(** The [user_data] dict.  The first five fields are the keys
    [match_user_to_project] reads, with the value [.get] returns; the others
    are keys a profile may carry besides. *)
Record UserData : Type := {
  skills : list str;
  embedding : option (list float);
  roles : list str;
  experience_years : Z;
  timezone : option str;
  bio : str;
  hackathons : option ResumeParser.Hackathons
}.

(** The [project_data] dict: the keys [match_user_to_project] reads. *)
Record ProjectData : Type := {
  p_id : option str;
  required_skills : list str;
  p_embedding : option (list float);
  required_roles : list str;
  min_experience : Z;
  max_experience : Z;
  p_timezone : option str
}.

(** One entry of [Match.reasons]; the rendering to text is left out. *)
Inductive Reason : Type :=
| SkillsMatched (shared_count required_count : nat)
| StrongSkillMatch
| RoleFit (matched_roles : list str)
| BonusSkills (n : nat)
| ProfileSimilarity (emb_score : float).

Record Match : Type := {
  target_id : str;
  score : float;
  reasons : list Reason;
  shared_skills : list str;
  complementary_skills : list str
}.

(** [self.WEIGHTS] *)
Record Weights : Type := {
  skill_overlap : float;
  embedding_similarity : float;
  role_match : float;
  experience_fit : float;
  hackathon_bonus : float;
  availability : float
}.

Definition WEIGHTS : Weights := {|
  skill_overlap := 0.45;
  embedding_similarity := 0.25;
  role_match := 0.15;
  experience_fit := 0.06;
  hackathon_bonus := 0.05;
  availability := 0.04
|}.

(** [calculate_embedding_score]: an exception of the engine gives 0.0. *)
Definition calculate_embedding_score (emb1 emb2 : option (list float)) : float :=
  match emb1, emb2 with
  | Some e1, Some e2 =>
      match EmbeddingEngine.cosine_similarity e1 e2 with
      | Ok x => x
      | Raise _ => 0
      end
  | _, _ => 0
  end.

(** [calculate_role_match] *)
Definition calculate_role_match (user_roles required_roles : list str)
  : float * list str :=
  match required_roles with
  | [] => (1, [])
  | _ =>
      let user_set : gset str := list_to_set (map lower user_roles) in
      let req_set : gset str := list_to_set (map lower required_roles) in
      let matched := elements (user_set ∩ req_set) in
      let ratio :=
        if Nat.eqb (size req_set) 0 then 0
        else of_nat (length matched) / of_nat (size req_set) in
      (ratio, matched)
  end.

(** A dict comprehension [{normalize_skill(s): s for s in l}]: a later skill
    replaces an earlier one with the same key. *)
Definition normalized (l : list str) : gmap str str :=
  fold_left (fun m s => <[normalize_skill s := s]> m) l ∅.

(** [calculate_skill_overlap].  The order of the two returned lists is that
    of a Python set, which the language leaves open; here it is the order of
    [elements]. *)
Definition calculate_skill_overlap (user_skills required_skills : list str)
  : float * list str * list str :=
  match required_skills with
  | [] => (0.5, [], [])
  | _ =>
      let user_normalized := normalized user_skills in
      let req_normalized := normalized required_skills in
      let shared_keys : gset str := dom user_normalized ∩ dom req_normalized in
      let comp_keys : gset str := dom user_normalized ∖ dom req_normalized in
      let shared := map (fun k => req_normalized !!! k) (elements shared_keys) in
      let complementary := map (fun k => user_normalized !!! k) (elements comp_keys) in
      let overlap_ratio := of_nat (size shared_keys) / of_nat (size req_normalized) in
      let complementary_bonus := py_min (of_nat (size comp_keys) * 0.05) 0.2 in
      let score := py_min (overlap_ratio + complementary_bonus) 1 in
      (score, shared, complementary)
  end.

(** [calculate_experience_fit] *)
Definition calculate_experience_fit (user_exp required_exp_min required_exp_max : Z)
  : float :=
  if (user_exp <? required_exp_min)%Z then
    let gap := (required_exp_min - user_exp)%Z in
    py_max 0.5 (1 - of_Z gap * 0.15)
  else if (required_exp_max <? user_exp)%Z then
    let gap := (user_exp - required_exp_max)%Z in
    py_max 0.7 (1 - of_Z gap * 0.05)
  else 1.

(** Truth value of an optional string: [None] and [""] are false. *)
Definition truthy_str (s : option str) : bool :=
  match s with
  | Some (_ :: _) => true
  | _ => false
  end.

(** Truth value of an optional list: [None] and [[]] are false. *)
Definition truthy_list {A} (l : option (list A)) : bool :=
  match l with
  | Some (_ :: _) => true
  | _ => false
  end.

(** [calculate_availability_score] *)
Definition calculate_availability_score (user_tz project_tz : option str) : float :=
  if negb (truthy_str user_tz) || negb (truthy_str project_tz) then 1
  else if bool_decide (user_tz = project_tz) then 1 else 0.8.

(** The five sub-scores weighted by the table [W], summed as the source
    writes the sum. *)
Definition weighted_sum (W : Weights)
    (skill_score emb_score role_score exp_score avail_score : float) : float :=
  skill_score * skill_overlap W
  + emb_score * embedding_similarity W
  + role_score * role_match W
  + exp_score * experience_fit W
  + avail_score * availability W.

(** The human-friendly reasons, in the order the source appends them. *)
Definition build_reasons (shared_count required_count : nat)
    (matched_roles complementary : list str) (emb_score : float) : list Reason :=
  (if Nat.ltb 0 shared_count then [SkillsMatched shared_count required_count] else [])
  ++ (if py_max 1 (of_nat required_count * 0.8) <=? of_nat shared_count
      then [StrongSkillMatch] else [])
  ++ (match matched_roles with [] => [] | _ => [RoleFit matched_roles] end)
  ++ (if Nat.leb 3 (length complementary) then [BonusSkills (length complementary)] else [])
  ++ (if 0.7 <? emb_score then [ProfileSimilarity emb_score] else []).

(** [match_user_to_project], for an engine whose weight table is [W]. *)
Definition match_with (W : Weights) (user_data : UserData) (project_data : ProjectData)
  : Match :=
  (* 1. Skill overlap *)
  let '(skill_score, shared_skills, complementary) :=
    calculate_skill_overlap (skills user_data) (required_skills project_data) in
  (* 2. Embedding similarity *)
  let emb_score :=
    if truthy_list (embedding user_data) && truthy_list (p_embedding project_data)
    then calculate_embedding_score (embedding user_data) (p_embedding project_data)
    else 0.5 in
  (* 3. Role match *)
  let '(role_score, matched_roles) :=
    calculate_role_match (roles user_data) (required_roles project_data) in
  (* 4. Experience *)
  let exp_score :=
    calculate_experience_fit (experience_years user_data)
      (min_experience project_data) (max_experience project_data) in
  (* 5. Availability *)
  let avail_score :=
    calculate_availability_score (timezone user_data) (p_timezone project_data) in
  (* Weighted final score *)
  let final_score := weighted_sum W skill_score emb_score role_score exp_score avail_score in
  (* additive boost: more shared skills = higher rank in ties *)
  let final_score := final_score + py_min (of_nat (length shared_skills) * 0.02) 0.12 in
  let final_score := py_max 0 (py_min 1 final_score) in
  {| target_id := match p_id project_data with Some i => i | None => lit "unknown" end;
     score := final_score;
     reasons := build_reasons (length shared_skills) (length (required_skills project_data))
                  matched_roles complementary emb_score;
     shared_skills := shared_skills;
     complementary_skills := complementary |}.

Definition match_user_to_project : UserData -> ProjectData -> Match :=
  match_with WEIGHTS.

(** The sort key [(mm.score, len(mm.shared_skills))]. *)
Definition sort_key (mm : Match) : float * nat := (score mm, length (shared_skills mm)).

(** [a < b] on two keys, as tuples compare: the first components decide
    unless they are equal. *)
Definition key_lt (a b : float * nat) : bool :=
  if fst a =? fst b then Nat.ltb (snd a) (snd b) else fst a <? fst b.

(** [list.sort(key=..., reverse=True)]: a stable sort into descending order.
    An element is inserted in front of the sorted rest and moves right past
    the elements whose key is strictly greater. *)
Fixpoint insert_desc (x : Match) (l : list Match) : list Match :=
  match l with
  | [] => [x]
  | y :: l' =>
      if key_lt (sort_key x) (sort_key y) then y :: insert_desc x l'
      else x :: l
  end.

Fixpoint sort_desc (l : list Match) : list Match :=
  match l with
  | [] => []
  | x :: l' => insert_desc x (sort_desc l')
  end.

(** [l[:k]] for any integer [k]: a negative [k] counts from the end. *)
Definition slice_to {A} (k : Z) (l : list A) : list A :=
  if (k <? 0)%Z then firstn (Z.to_nat (Z.of_nat (length l) + k)) l
  else firstn (Z.to_nat k) l.

(** [rank_candidates] *)
Definition rank_candidates (candidates : list UserData) (project_data : ProjectData)
    (top_k : Z) : list Match :=
  let matches := map (fun candidate => match_user_to_project candidate project_data)
                     candidates in
  slice_to top_k (sort_desc matches).

(** ** Words for the properties *)

(** The score as the spec words it: the weighted sum of the five sub-scores,
    the boost for shared skills, the clamp to [0, 1]. *)
Definition spec_score (skill emb role exp avail : float) (n_shared : nat) : float :=
  let weighted := skill * 0.45 + emb * 0.25 + role * 0.15 + exp * 0.06 + avail * 0.04 in
  let boosted := weighted + py_min (of_nat n_shared * 0.02) 0.12 in
  py_max 0 (py_min 1 boosted).

(** The weight table with another ["hackathon_bonus"]. *)
Definition set_hackathon_bonus (w : float) (W : Weights) : Weights := {|
  skill_overlap := skill_overlap W;
  embedding_similarity := embedding_similarity W;
  role_match := role_match W;
  experience_fit := experience_fit W;
  hackathon_bonus := w;
  availability := availability W
|}.

(** The profile with other competition data. *)
Definition with_hackathons (h : option ResumeParser.Hackathons) (u : UserData) : UserData := {|
  skills := skills u;
  embedding := embedding u;
  roles := roles u;
  experience_years := experience_years u;
  timezone := timezone u;
  bio := bio u;
  hackathons := h
|}.










(** ** Sample inputs *)

Definition backend_project : ProjectData := {|
  p_id := Some (lit "7");
  required_skills := [lit "python"; lit "React JS"; lit "docker"];
  p_embedding := Some [0.1; 0.2];
  required_roles := [lit "backend"];
  min_experience := 0;
  max_experience := 10;
  p_timezone := Some (lit "UTC")
|}.

Definition alice : UserData := {|
  skills := [lit "Python"; lit "react.js"; lit "Node-JS"; lit "go"];
  embedding := Some [0.1; 0.2];
  roles := [lit "Backend"];
  experience_years := 3;
  timezone := Some (lit "UTC");
  bio := [];
  hackathons := None
|}.

Definition bob : UserData := {|
  skills := [lit "docker"];
  embedding := None;
  roles := [];
  experience_years := 12;
  timezone := Some (lit "IST");
  bio := [];
  hackathons := None
|}.

End MatchingEngine.

(* ===================================================================== *)
(** * app/services/resume_parser.py: the field extractors                 *)
(* ===================================================================== *)

Module ResumeFields.

Import ResumeParser.

Local Open Scope nat_scope.

(** ** Pieces of the patterns *)

(** The ranges [[A-Z]], [[a-z]], [[0-9]] of a pattern: ASCII only. *)
Definition ascii_upper (c : N) : bool := between 65 90 c.
Definition ascii_lower (c : N) : bool := between 97 122 c.
Definition ascii_letter (c : N) : bool := ascii_upper c || ascii_lower c.
Definition ascii_digit (c : N) : bool := between 48 57 c.
Definition ascii_alnum (c : N) : bool := ascii_letter c || ascii_digit c.

(** A character class repeated, [[class]{lo,}] or [[class]{lo,hi}], followed
    by [k]: the longest run is tried first, then the shorter ones. *)
Fixpoint rep_then {A : Type} (class : N -> bool) (lo : nat) (hi : option nat)
    (k : str -> option A) (s : str) : option A :=
  let stop := if Nat.eqb lo 0 then k s else None in
  match s with
  | c :: t =>
      if class c && negb (bool_decide (hi = Some 0)) then
        match rep_then class (Nat.pred lo) (option_map Nat.pred hi) k t with
        | Some r => Some r
        | None => stop
        end
      else stop
  | [] => stop
  end.

(** The text of a match that began at [s] and left [rest]. *)
Definition matched (s rest : str) : str := firstn (length s - length rest) s.

(** [re.search]: the pattern is tried at each position from the left;
    [before] is the character in front of the position. *)
Fixpoint re_search {R : Type} (pattern : option N -> str -> option R)
    (before : option N) (s : str) : option R :=
  match pattern before s with
  | Some r => Some r
  | None =>
      match s with
      | [] => None
      | c :: t => re_search pattern (Some c) t
      end
  end.

(** A lower-case letter or a sign [p] of a pattern against a character [c]
    of the text, under [re.IGNORECASE]: the letter, its capital, and the
    characters U+0130 and U+0131 for [i], U+017F for [s], U+212A for [k]. *)
Definition ci_char (p c : N) : bool :=
  (c =? p)%N
  || (ascii_lower p && (c + 32 =? p)%N)
  || ((p =? 105)%N && ((c =? 304)%N || (c =? 305)%N))
  || ((p =? 115)%N && (c =? 383)%N)
  || ((p =? 107)%N && (c =? 8490)%N).

(** A literal under [re.IGNORECASE], followed by [k]. *)
Fixpoint ilit_then {A : Type} (w : str) (k : str -> option A) (s : str) : option A :=
  match w with
  | [] => k s
  | p :: w' =>
      match s with
      | c :: t => if ci_char p c then ilit_then w' k t else None
      | [] => None
      end
  end.

(** ** Contact *)

(** [EMAIL_RE]: [\b[A-Za-z0-9._%+-]+@[A-Za-z0-9.-]+\.[A-Za-z]{2,}\b] *)
Definition email_local (c : N) : bool :=
  ascii_alnum c || (c =? 46)%N || (c =? 95)%N || (c =? 37)%N || (c =? 43)%N || (c =? 45)%N.

Definition email_domain (c : N) : bool :=
  ascii_alnum c || (c =? 46)%N || (c =? 45)%N.

(** The last [\b] comes after a letter: no word character may follow. *)
Definition email_at (before : option N) (s : str) : option str :=
  if boundary before s then
    option_map (matched s)
      (rep_then email_local 1 None
         (lit_then (lit "@")
            (rep_then email_domain 1 None
               (lit_then (lit ".")
                  (rep_then ascii_letter 2 None
                     (fun rest => if is_word_opt (head rest) then None else Some rest)))))
         s)
  else None.

(** [PHONE_RE]: [[\+\(]?[0-9][0-9\-\s\.\(\)]{7,}[0-9]] *)
Definition phone_char (c : N) : bool :=
  ascii_digit c || (c =? 45)%N || isspace c || (c =? 46)%N || (c =? 40)%N || (c =? 41)%N.

Definition phone_body (s : str) : option str :=
  match s with
  | d :: t =>
      if ascii_digit d then
        rep_then phone_char 7 None
          (fun rest => match rest with
                       | e :: r => if ascii_digit e then Some r else None
                       | [] => None
                       end) t
      else None
  | [] => None
  end.

Definition phone_at (_ : option N) (s : str) : option str :=
  option_map (matched s)
    (orelse (match s with
             | c :: t => if (c =? 43)%N || (c =? 40)%N then phone_body t else None
             | [] => None
             end)
            (phone_body s)).

(** [GITHUB_RE] and [LINKEDIN_RE]: a site, then [([A-Za-z0-9_-]+)], under
    [re.IGNORECASE]. *)
Definition handle_char (c : N) : bool :=
  ascii_alnum c || (c =? 95)%N || (c =? 45)%N
  || (c =? 304)%N || (c =? 305)%N || (c =? 383)%N || (c =? 8490)%N.

Definition handle_at (site : str) (_ : option N) (s : str) : option str :=
  option_map (matched s) (ilit_then site (rep_then handle_char 1 None Some) s).

(** [extract_contact_info] *)
Definition extract_contact_info (text : str) : Contact :=
  let email := re_search email_at None text in
  let phone := re_search phone_at None text in
  let gh := re_search (handle_at (lit "github.com/")) None text in
  let li := re_search (handle_at (lit "linkedin.com/in/")) None text in
  {| email := email;
     phone := phone;
     github := option_map (fun g => lit "https://" ++ g) gh;
     linkedin := option_map (fun g => lit "https://" ++ g) li |}.

(** ** Name *)

(** The characters at which [str.splitlines] breaks a line. *)
Definition is_linebreak (c : N) : bool :=
  between 10 13 c || between 28 30 c || (c =? 133)%N || (c =? 8232)%N || (c =? 8233)%N.

(** [text.splitlines()]: [line] holds the characters of the current line,
    last first; a carriage return and the line feed after it break once. *)
Fixpoint splitlines_from (line : str) (s : str) : list str :=
  match s with
  | [] => match line with [] => [] | _ => [rev line] end
  | c :: t =>
      if is_linebreak c then
        rev line ::
          match t with
          | c' :: t' =>
              if (c =? 13)%N && (c' =? 10)%N then splitlines_from [] t'
              else splitlines_from [] t
          | [] => splitlines_from [] t
          end
      else splitlines_from (c :: line) t
  end.

Definition splitlines (text : str) : list str := splitlines_from [] text.

(** [len(line.split())]: the number of runs of characters that are not
    white space. *)
Fixpoint count_words (inside : bool) (s : str) : nat :=
  match s with
  | [] => 0
  | c :: t =>
      if isspace c then count_words false t
      else if inside then count_words true t
      else S (count_words true t)
  end.

Definition SECTION_WORDS : list str :=
  [lit "skills"; lit "experience"; lit "education"; lit "projects"; lit "summary";
   lit "contact"].

(** [[A-Za-z .'\-]] *)
Definition name_char (c : N) : bool :=
  ascii_letter c || (c =? 32)%N || (c =? 46)%N || (c =? 39)%N || (c =? 45)%N.

(** [re.match(r"^[A-Za-z .'\-]{2,}$", line)]: [$] also stands before a line
    feed that ends the line. *)
Definition name_pattern (line : str) : bool :=
  match rep_then name_char 2 None
          (fun rest => match rest with
                       | [] => Some tt
                       | [c] => if (c =? 10)%N then Some tt else None
                       | _ => None
                       end) line with
  | Some _ => true
  | None => false
  end.

(** The loop over the lines. *)
Fixpoint first_name_line (lines : list str) : option str :=
  match lines with
  | [] => None
  | l :: rest =>
      let line := strip l in
      match line with
      | [] => first_name_line rest
      | _ =>
          let low := lower line in
          if existsb (fun skip => contains skip low) SECTION_WORDS
          then first_name_line rest
          else if Nat.leb 2 (count_words false line)
                  && Nat.leb (count_words false line) 4
                  && name_pattern line
          then Some line
          else first_name_line rest
      end
  end.

(** [extract_name] *)
Definition extract_name (text : str) : option str := first_name_line (splitlines text).

(** ** Skills *)

Definition SKILL_KEYWORDS : list (str * list (str * list str)) :=
  [(lit "frontend",
    [(lit "react", [lit "react"; lit "reactjs"; lit "react.js"]);
     (lit "javascript", [lit "javascript"; lit "js"]);
     (lit "html", [lit "html"; lit "html5"]);
     (lit "css", [lit "css"; lit "scss"; lit "sass"]);
     (lit "tailwind", [lit "tailwind"; lit "tailwindcss"])]);
   (lit "backend",
    [(lit "python", [lit "python"; lit "python3"]);
     (lit "fastapi", [lit "fastapi"; lit "fast api"]);
     (lit "flask", [lit "flask"]);
     (lit "nodejs", [lit "node"; lit "nodejs"; lit "node.js"]);
     (lit "express", [lit "express"; lit "expressjs"]);
     (lit "java", [lit "java"]);
     (lit "csharp", [lit "c#"; lit "csharp"; lit ".net"])]);
   (lit "ml_ai",
    [(lit "pytorch", [lit "pytorch"; lit "torch"]);
     (lit "tensorflow", [lit "tensorflow"; lit "tf"; lit "keras"]);
     (lit "sklearn", [lit "scikit-learn"; lit "sklearn"]);
     (lit "nlp", [lit "nlp"; lit "natural language processing"]);
     (lit "cv", [lit "computer vision"; lit "opencv"; lit "cv"]);
     (lit "transformers", [lit "transformers"; lit "bert"; lit "gpt"; lit "llm"])]);
   (lit "data",
    [(lit "sql", [lit "sql"; lit "mysql"; lit "postgres"; lit "postgresql"]);
     (lit "pandas", [lit "pandas"]);
     (lit "numpy", [lit "numpy"]);
     (lit "mongodb", [lit "mongo"; lit "mongodb"]);
     (lit "elasticsearch", [lit "elasticsearch"; lit "elastic"])]);
   (lit "devops",
    [(lit "docker", [lit "docker"; lit "dockerfile"]);
     (lit "kubernetes", [lit "kubernetes"; lit "k8s"]);
     (lit "aws", [lit "aws"; lit "amazon web services"; lit "ec2"; lit "s3"])])].

(** [d[k] = v] on a dict kept as the list of its items in insertion order:
    a key already there keeps its place. *)
Fixpoint dict_set {V : Type} (k : str) (v : V) (d : list (str * V)) : list (str * V) :=
  match d with
  | [] => [(k, v)]
  | (k', v') :: d' =>
      if bool_decide (k' = k) then (k, v) :: d' else (k', v') :: dict_set k v d'
  end.

(** The reverse map: synonym -> (canonical, category). *)
Definition _skill_syn : list (str * (str * str)) :=
  fold_left (fun d '(cat, kv) =>
    fold_left (fun d '(canonical, syns) =>
      fold_left (fun d s => dict_set (lower s) (canonical, cat) d) syns d) kv d)
    SKILL_KEYWORDS [].

(** [re.search(r"\b" + re.escape(syn) + r"\b", text_lower)] *)
Definition skill_found (syn text_lower : str) : bool := search_words [syn] text_lower.

(** [found[cat].add(canonical)] on a [defaultdict(set)]. *)
Fixpoint found_add (cat canonical : str) (found : list (str * gset str))
  : list (str * gset str) :=
  match found with
  | [] => [(cat, {[canonical]})]
  | (k, v) :: found' =>
      if bool_decide (k = cat) then (k, {[canonical]} ∪ v) :: found'
      else (k, v) :: found_add cat canonical found'
  end.

(** [sorted(v)] for a set of strings. *)
Definition sorted (v : gset str) : list str := sorted_set (elements v).

(** [extract_skills] *)
Definition extract_skills (text : str) : list (str * list str) :=
  let text_lower := lower text in
  let found :=
    fold_left (fun found '(syn, (canonical, cat)) =>
                 if skill_found syn text_lower then found_add cat canonical found
                 else found) _skill_syn [] in
  map (fun '(k, v) => (k, sorted v)) found.

(** [canonical], of the category [cat], has a synonym that stands in the
    lowered text between word boundaries. *)
Definition skill_hit (text_lower cat canonical : str) : Prop :=
  exists syn, (syn, (canonical, cat)) ∈ _skill_syn /\ skill_found syn text_lower = true.

(** Strings in strictly increasing order. *)
Definition increasing (l : list str) : Prop :=
  StronglySorted (fun a b => str_ltb a b = true) l.

(** ** Roles *)

Definition ROLE_PATTERNS : list (str * list str) :=
  [(lit "frontend", [lit "frontend"; lit "front end"; lit "front-end"; lit "ui developer"]);
   (lit "backend", [lit "backend"; lit "backend engineer"; lit "api developer"]);
   (lit "fullstack", [lit "fullstack"; lit "full-stack"; lit "full stack"]);
   (lit "ml_engineer", [lit "machine learning"; lit "ml engineer"; lit "data scientist"]);
   (lit "devops", [lit "devops"; lit "sre"; lit "site reliability"])].

(** [extract_roles] *)
Definition extract_roles (text : str) : list str :=
  let text_lower := lower text in
  let roles : gset str :=
    fold_left (fun roles '(role, pats) =>
                 if existsb (fun pat => contains pat text_lower) pats
                 then {[role]} ∪ roles else roles) ROLE_PATTERNS ∅ in
  sorted roles.

(** The keys of [ROLE_PATTERNS] in alphabetical order. *)
Definition ROLE_NAMES : list str :=
  [lit "backend"; lit "devops"; lit "frontend"; lit "fullstack"; lit "ml_engineer"].

(** A pattern of [role] occurs in the lowered text. *)
Definition role_found (text_lower : str) (role : str) : bool :=
  existsb (fun '(r, pats) =>
             bool_decide (r = role) && existsb (fun pat => contains pat text_lower) pats)
          ROLE_PATTERNS.

(** ** Education *)

(** [b(?:\.tech|\.?tech|achelor)] and [m(?:\.tech|\.?tech|aster)], at the
    head of [s], under [re.IGNORECASE] *)
Definition degree_at (initial rest_of_word : str) (_ : option N) (s : str) : option unit :=
  ilit_then initial
    (fun r =>
       orelse (ilit_then (lit ".tech") (fun _ => Some tt) r)
         (orelse (orelse (ilit_then (lit ".") (ilit_then (lit "tech") (fun _ => Some tt)) r)
                         (ilit_then (lit "tech") (fun _ => Some tt) r))
                 (ilit_then rest_of_word (fun _ => Some tt) r))) s.

(** [(?:phd|ph\.d\.)] *)
Definition phd_at (_ : option N) (s : str) : option unit :=
  orelse (ilit_then (lit "phd") (fun _ => Some tt) s)
         (ilit_then (lit "ph.d.") (fun _ => Some tt) s).

Definition degree_patterns : list ((option N -> str -> option unit) * str) :=
  [(degree_at (lit "b") (lit "achelor"), lit "Bachelor");
   (degree_at (lit "m") (lit "aster"), lit "Master");
   (phd_at, lit "PhD")].

(** [extract_education]: an entry is the pair of its ["degree"] and its
    ["field"]. *)
Definition extract_education (text : str) : list (str * str) :=
  flat_map (fun '(pat, label) =>
              match re_search pat None text with
              | Some _ => [(label, lit "Unknown")]
              | None => []
              end) degree_patterns.

(** ** Work experience *)

(** [[A-Za-z0-9 &\.\-]] *)
Definition company_char (c : N) : bool :=
  ascii_alnum c || (c =? 32)%N || (c =? 38)%N || (c =? 46)%N || (c =? 45)%N.

(** [(?:at|@)\s+([A-Z][A-Za-z0-9 &\.\-]{2,50})] at the head of [s]: group 1
    and what follows the match. *)
Definition company_at (s : str) : option (str * str) :=
  let name s :=
    match s with
    | c :: t =>
        if ascii_upper c
        then rep_then company_char 2 (Some 50)
               (fun rest => Some (c :: matched t rest, rest)) t
        else None
    | [] => None
    end in
  orelse (lit_then (lit "at") (spaces1_then name) s)
         (lit_then (lit "@") (spaces1_then name) s).

(** [re.finditer]: the matches from left to right, none overlapping another.
    [skip] counts the characters of the last match still to be passed. *)
Fixpoint finditer_from (skip : nat) (s : str) : list str :=
  match s with
  | [] => []
  | _ :: t =>
      match skip with
      | S skip' => finditer_from skip' t
      | O =>
          match company_at s with
          | Some (group1, rest) =>
              group1 :: finditer_from (length s - length rest - 1) t
          | None => finditer_from 0 t
          end
      end
  end.

(** The loop that drops a company already seen, whatever its case. *)
Fixpoint dedupe (seen : gset str) (companies : list str) : list str :=
  match companies with
  | [] => []
  | c :: rest =>
      let key := lower c in
      if bool_decide (key ∈ seen) then dedupe seen rest
      else c :: dedupe ({[key]} ∪ seen) rest
  end.

(** [extract_work_experience]: an entry is its ["company"]. *)
Definition extract_work_experience (text : str) : list str :=
  let companies := map strip (finditer_from 0 text) in
  firstn 5 (dedupe ∅ companies).

(** ** The parser with its extractors *)

Definition extractors : Extractors := {|
  ResumeParser.extract_contact_info := extract_contact_info;
  ResumeParser.extract_name := extract_name;
  ResumeParser.extract_skills := extract_skills;
  ResumeParser.extract_roles := extract_roles;
  ResumeParser.extract_education := extract_education;
  ResumeParser.extract_work_experience := extract_work_experience
|}.

End ResumeFields.

(* ===================================================================== *)
(** * app/api/routes/match.py                                             *)
(* ===================================================================== *)

Module MatchRoute.

Import ResumeParser MatchingEngine.

(** ** Dicts *)

(** The values held in the dicts the route builds. *)
Inductive value : Type :=
| VNone
| VInt (n : Z)
| VStr (s : str)
| VList (l : list str)        (* a list of strings *)
| VVector (v : list float).   (* a list of floats *)

(** A dict with string keys. *)
Definition dict : Type := gmap str value.

(** A dict display [{k1: v1, k2: v2, ...}]: a later item replaces an earlier
    one with the same key. *)
Definition item (key : string) (v : value) : str * value := (lit key, v).

Definition dict_of (items : list (str * value)) : dict :=
  fold_left (fun d kv => <[fst kv := snd kv]> d) items ∅.

(** [d.get(key, default)] *)
Definition get (d : dict) (key : string) (default : value) : value :=
  match d !! lit key with
  | Some v => v
  | None => default
  end.

(** [str(n)] for an integer: its decimal digits, most significant first. *)
Fixpoint digits_from (fuel : nat) (n : N) (acc : str) : str :=
  match fuel with
  | O => acc
  | S fuel' =>
      let acc' := (48 + n mod 10)%N :: acc in
      if (n / 10 =? 0)%N then acc' else digits_from fuel' (n / 10)%N acc'
  end.

Definition str_of_N (n : N) : str := digits_from (S (N.to_nat (N.log2 n))) n [].

Definition str_of_int (z : Z) : str :=
  if (z <? 0)%Z then 45%N :: str_of_N (Z.to_N (- z)) else str_of_N (Z.to_N z).

(** [str(v)] for the values an id may be. *)
Definition py_str (v : value) : option str :=
  match v with
  | VNone => Some (lit "None")
  | VInt n => Some (str_of_int n)
  | VStr s => Some s
  | _ => None
  end.

(** ** [match_user_to_project] on dicts *)

(** The arguments of [match_user_to_project] are dicts, read with [.get].
    The two functions below read the keys of the source with the defaults of
    the source; they give [None] when a value has a type the scoring
    functions are not written for. *)
Definition as_embedding (v : value) : option (option (list float)) :=
  match v with
  | VNone => Some None
  | VVector e => Some (Some e)
  | _ => None
  end.

Definition as_text (v : value) : option (option str) :=
  match v with
  | VNone => Some None
  | VStr s => Some (Some s)
  | _ => None
  end.

Definition user_data_of (user_data : dict) : option UserData :=
  match get user_data "skills" (VList []),
        as_embedding (get user_data "embedding" VNone),
        get user_data "roles" (VList []),
        get user_data "experience_years" (VInt 0),
        as_text (get user_data "timezone" (VStr [])) with
  | VList skills, Some embedding, VList roles, VInt experience_years, Some timezone =>
      Some {| skills := skills;
              embedding := embedding;
              roles := roles;
              experience_years := experience_years;
              timezone := timezone;
              bio := match get user_data "bio" (VStr []) with VStr s => s | _ => [] end;
              hackathons := None |}
  | _, _, _, _, _ => None
  end.

Definition project_data_of (project_data : dict) : option ProjectData :=
  match get project_data "required_skills" (VList []),
        as_embedding (get project_data "embedding" VNone),
        get project_data "required_roles" (VList []),
        get project_data "min_experience" (VInt 0),
        get project_data "max_experience" (VInt 10),
        as_text (get project_data "timezone" (VStr [])),
        py_str (get project_data "id" (VStr (lit "unknown"))) with
  | VList required_skills, Some embedding, VList required_roles,
    VInt min_experience, VInt max_experience, Some timezone, Some target_id =>
      Some {| p_id := Some target_id;
              required_skills := required_skills;
              p_embedding := embedding;
              required_roles := required_roles;
              min_experience := min_experience;
              max_experience := max_experience;
              p_timezone := timezone |}
  | _, _, _, _, _, _, _ => None
  end.

Definition match_user_to_project_dicts (user_data project_data : dict) : option Match :=
  match user_data_of user_data, project_data_of project_data with
  | Some u, Some p => Some (match_user_to_project u p)
  | _, _ => None
  end.

(** ** [MatchingEngineWrapper] *)

(** The embedding engine, as far as the wrapper uses it: the two embedding
    functions, which may raise. *)
Record Engine : Type := {
  embed_profile : dict -> result (list float);
  embed_project : dict -> result (list float)
}.

(** [self.embedding_engine] is [None] when the engine could not be loaded;
    [self.matcher] exists exactly when the engine does. *)
Definition MatchingEngineWrapper : Type := option Engine.

Inductive Kind : Type :=
| profile
| project.

(** [[0.1] * 384] *)
Definition default_embedding : list float := repeat 0.1%float 384.

(** [MatchingEngineWrapper.ensure_embedding] *)
Definition ensure_embedding (wrapper : MatchingEngineWrapper) (data_dict : dict)
    (kind : Kind) : list float :=
  match wrapper with
  | None => default_embedding
  | Some engine =>
      match (match kind with
             | profile => embed_profile engine data_dict
             | project => embed_project engine data_dict
             end) with
      | Ok emb => emb
      | Raise _ => default_embedding
      end
  end.

(** ** The upload route *)

(** A row of the table [projects]: the columns the route reads.  A JSON
    column holds null or a list. *)
Record ProjectRow : Type := {
  row_id : Z;
  row_title : str;
  row_description : option str;
  row_required_skills : option (list str);
  row_required_roles : option (list str);
  row_min_experience : option Z;
  row_max_experience : option Z;
  row_timezone : option str;
  row_embedding : option (list float)
}.

(** [x or d] for an optional integer *)
Definition or_int (x : option Z) (d : Z) : Z :=
  match x with
  | Some n => if (n =? 0)%Z then d else n
  | None => d
  end.

Definition or_str (x : option str) (d : str) : str :=
  match x with
  | Some (c :: s) => c :: s
  | _ => d
  end.

Definition value_of_text (x : option str) : value :=
  match x with
  | Some s => VStr s
  | None => VNone
  end.

(** [[str(s).strip().lower() for s in l]] *)
Definition cleaned (l : list str) : list str := map (fun s => lower (strip s)) l.

(** [user_profile], with its embedding. *)
Definition user_profile (wrapper : MatchingEngineWrapper) (parsed : Profile) : dict :=
  let all_skills := all_skills parsed in
  let user_profile := dict_of [
    item "id" (VStr (lit "user_resume"));
    item "user_id" (VStr (lit "user_resume"));
    item "name" (VStr (or_str (Some (name parsed)) (lit "Resume User")));
    item "email" (value_of_text (email (contact parsed)));
    item "roles" (VList (cleaned (match p_roles parsed with
                              | [] => [lit "developer"]
                              | r => r
                              end)));
    item "skills" (VList (cleaned all_skills));
    item "experience_years" (VInt (Z.of_N (p_experience_years parsed)));
    item "bio" (VStr (lit "Resume with " ++ str_of_int (Z.of_nat (length all_skills))
                  ++ lit " skills"));
    item "timezone" (VNone)
  ] in
  let user_emb := ensure_embedding wrapper user_profile profile in
  <[lit "embedding" := VVector (match user_emb with
                                | [] => default_embedding
                                | _ => user_emb
                                end)]> user_profile.

(** The lists [req_skills] and [req_roles] of a row. *)
Definition req_list (column : option (list str)) : list str :=
  match column with
  | Some l => cleaned l
  | None => []
  end.

(** The embedding of a row: the stored one, or one computed for it, or the
    default. *)
Definition project_embedding (wrapper : MatchingEngineWrapper) (p : ProjectRow)
  : list float :=
  match row_embedding p with
  | Some (x :: v) => x :: v
  | _ =>
      let proj_dict := dict_of [
        item "id" (VInt (row_id p));
        item "title" (VStr (row_title p));
        item "description" (VStr (or_str (row_description p) []));
        item "required_skills" (VList (req_list (row_required_skills p)));
        item "required_roles" (VList (req_list (row_required_roles p)));
        item "min_experience" (VInt (or_int (row_min_experience p) 0));
        item "max_experience" (VInt (or_int (row_max_experience p) 10));
        item "timezone" (value_of_text (row_timezone p))
      ] in
      match ensure_embedding wrapper proj_dict project with
      | [] => default_embedding
      | emb => emb
      end
  end.

(** The [candidate] dict of a row. *)
Definition candidate (wrapper : MatchingEngineWrapper) (p : ProjectRow) : dict :=
  dict_of [
    item "id" (VInt (row_id p));
    item "user_id" (VInt (row_id p));
    item "name" (VStr (or_str (Some (row_title p))
                     (lit "Project-" ++ str_of_int (row_id p))));
    item "email" (VNone);
    item "roles" (VList (req_list (row_required_roles p)));
    item "skills" (VList (req_list (row_required_skills p)));
    item "experience_years" (VInt 0);
    item "embedding" (VVector (project_embedding wrapper p));
    item "min_experience" (VInt (or_int (row_min_experience p) 0));
    item "max_experience" (VInt (or_int (row_max_experience p) 10));
    item "timezone" (value_of_text (row_timezone p))
  ].

(** What the route has when step 6 is over: an [HTTPException] with its
    status code, or the parsed resume and the ranked matches, which step 7
    renders with the columns of their projects. *)
Inductive outcome : Type :=
| HTTPException (status_code : nat)
| Ranked (parsed : Profile) (ranked_matches : list Match).

(** The embedding the route gives the user: [user_profile["embedding"]]. *)
Definition user_embedding (wrapper : MatchingEngineWrapper) (parsed : Profile)
  : list float :=
  match get (user_profile wrapper parsed) "embedding" VNone with
  | VVector v => v
  | _ => []
  end.

(** All the matches, or [None] when one of them is not defined. *)
Fixpoint all_matches (user : dict) (candidates : list dict) : option (list Match) :=
  match candidates with
  | [] => Some []
  | c :: rest =>
      match match_user_to_project_dicts user c, all_matches user rest with
      | Some m, Some ms => Some (m :: ms)
      | _, _ => None
      end
  end.

(** [upload_and_match_resume], steps 1 to 6.  [projects] is the content of
    the table; the embeddings the route stores in it are not part of the
    outcome. *)
Definition upload_and_match_resume (libs : PdfLibraries) (self_library : Tag)
    (ex : Extractors) (wrapper : MatchingEngineWrapper)
    (content : bytes) (projects : list ProjectRow) (top_k : Z) : option outcome :=
  (* 1. read and validate the file *)
  match content with
  | [] => Some (HTTPException 400)
  | _ :: _ =>
      if (MAX_PDF_BYTES <? N.of_nat (length content))%N then Some (HTTPException 413)
      else
        (* 2. parse the resume *)
        match parse_resume libs self_library ex (Some content) None with
        | ParseError _ => Some (HTTPException 422)
        | Parsed_ok parsed =>
            (* 3. the user profile and its embedding *)
            let user := user_profile wrapper parsed in
            (* 4. the projects *)
            match projects with
            | [] => Some (HTTPException 404)
            | _ :: _ =>
                (* 5. the candidates *)
                let candidates := map (candidate wrapper) projects in
                (* 6. match the user against the projects *)
                match wrapper with
                | None => Some (HTTPException 500)
                | Some _ =>
                    match all_matches user candidates with
                    | Some matches_list =>
                        Some (Ranked parsed (slice_to top_k (sort_desc matches_list)))
                    | None => None
                    end
                end
            end
        end
  end.

(** ** Sample inputs *)

(** An engine that embeds everything as the same vector. *)
Definition constant_engine : Engine := {|
  embed_profile := fun _ => Ok [0.6; 0.8]%float;
  embed_project := fun _ => Ok [0.6; 0.8]%float
|}.

(** A project that asks for Python and Docker. *)
Definition python_row : ProjectRow := {|
  row_id := 7;
  row_title := lit "Data platform";
  row_description := None;
  row_required_skills := Some [lit "Python"; lit "Docker"];
  row_required_roles := Some [lit "backend"];
  row_min_experience := Some 2%Z;
  row_max_experience := None;
  row_timezone := Some (lit "UTC");
  row_embedding := None
|}.

End MatchRoute.

(* ===================================================================== *)
(** * Checks by enumeration                                               *)
(* ===================================================================== *)

Module EngineChecks.

Import MatchingEngine.

Local Open Scope float_scope.

(** The two penalties of [calculate_experience_fit], as functions of the
    gap in years. *)
Definition penalty_below (gap : Z) : float := py_max 0.5 (1 - of_Z gap * 0.15).
Definition penalty_above (gap : Z) : float := py_max 0.7 (1 - of_Z gap * 0.05).

(** The gaps of 1 to [n] years. *)
Definition gaps (n : nat) : list Z := map Z.of_nat (seq 1 n).

(** What the penalties are checked for at one gap: they stay at or above
    their floor and strictly below 1.0, and sit on the floor from a gap of 4
    years below the range and of 6 years above it. *)
Definition penalty_below_ok (gap : Z) : bool :=
  (0.5 <=? penalty_below gap) && (penalty_below gap <? 1)
  && negb (penalty_below gap =? 1)
  && ((gap <? 4)%Z || Leibniz.eqb (penalty_below gap) 0.5).

Definition penalty_above_ok (gap : Z) : bool :=
  (0.5 <=? penalty_above gap) && (0.7 <=? penalty_above gap) && (penalty_above gap <? 1)
  && negb (penalty_above gap =? 1)
  && ((gap <? 6)%Z || Leibniz.eqb (penalty_above gap) 0.7).

(** The largest gap the checks cover. *)
Definition max_gap : nat := Z.to_nat 10000.




End EngineChecks.

(* ===================================================================== *)
(** * Words for further properties of the parser                          *)
(* ===================================================================== *)

Module ParserWords.

Import ResumeParser.

(** A string with no white space at either end: what [strip] returns. *)
Definition stripped (s : str) : Prop :=
  match s with
  | [] => True
  | c :: _ => isspace c = false /\ (exists d, last s = Some d /\ isspace d = false)
  end.

(** A document of [MAX_PDF_BYTES] zero bytes. *)
Definition large_document : bytes := repeat Byte.x00 (N.to_nat MAX_PDF_BYTES).

(** A resume given as text. *)
Definition sample_resume : str :=
  lit "Jane Doe - Backend engineer at Acme, 7 years of experience with Python".

End ParserWords.

(* ===================================================================== *)
(** * Tactics                                                             *)
(* ===================================================================== *)

(** Goals about the lexicographic order of codes, by linear arithmetic. *)
Ltac lex_solve :=
  repeat match goal with
  | x : (Z * Z * Z)%type |- _ => destruct x as [[? ?] ?]
  end;
  unfold lex_lt in *; cbn [fst snd] in *; rewrite ?pair_equal_spec in *; lia.

(* ===================================================================== *)
(** * Properties                                                          *)
(* ===================================================================== *)

Import ResumeParser EmbeddingEngine MatchingEngine.

(** ** The order of the floats *)

Section FloatOrderFacts.

Local Open Scope float_scope.

Lemma SFcompare_code f1 f2 :
  f1 <> S754_nan -> f2 <> S754_nan ->
  SFcompare f1 f2 = Some (lex_compare (code f1) (code f2)).
Proof.
  intros H1 H2.
  destruct f1 as [s1|s1| |s1 m1 e1], f2 as [s2|s2| |s2 m2 e2]; try congruence;
    try destruct s1; try destruct s2; try reflexivity;
    cbn [SFcompare code lex_compare fst snd]; f_equal.
  - unfold lex_compare. cbn [fst snd Z.compare Pos.compare].
    rewrite Z.compare_opp, (Z.compare_antisym e1 e2).
    destruct (e1 ?= e2)%Z; cbn [CompOpp]; reflexivity.
Qed.

Lemma lex_compare_refl a : lex_compare a a = Eq.
Proof. unfold lex_compare. now rewrite !Z.compare_refl. Qed.

Lemma ordered_not_nan x : ordered x = true <-> Prim2SF x <> S754_nan.
Proof.
  unfold ordered. rewrite FloatAxioms.eqb_spec. unfold SFeqb. split.
  - intros H E. rewrite E in H. discriminate.
  - intros H. now rewrite SFcompare_code, lex_compare_refl.
Qed.

Section Ordered.

Context (x y : float) (Hx : ordered x = true) (Hy : ordered y = true).

Lemma compare_ordered :
  SFcompare (Prim2SF x) (Prim2SF y) = Some (lex_compare (fcode x) (fcode y)).
Proof. apply SFcompare_code; now apply ordered_not_nan. Qed.




Lemma ltb_ordered : (x <? y) = true <-> lex_compare (fcode x) (fcode y) = Lt.
Proof.
  rewrite FloatAxioms.ltb_spec. unfold SFltb. rewrite compare_ordered.
  destruct (lex_compare _ _); split; congruence.
Qed.

Lemma eqb_ordered : (x =? y) = true <-> lex_compare (fcode x) (fcode y) = Eq.
Proof.
  rewrite FloatAxioms.eqb_spec. unfold SFeqb. rewrite compare_ordered.
  destruct (lex_compare _ _); split; congruence.
Qed.

Lemma leb_ordered : (x <=? y) = true <-> lex_compare (fcode x) (fcode y) <> Gt.
Proof.
  rewrite FloatAxioms.leb_spec. unfold SFleb. rewrite compare_ordered.
  destruct (lex_compare _ _); split; congruence.
Qed.

End Ordered.

(** A comparison that holds makes both sides ordered. *)
Lemma ltb_true_ordered x y : (x <? y) = true -> ordered x = true /\ ordered y = true.
Proof.
  rewrite FloatAxioms.ltb_spec, !ordered_not_nan. unfold SFltb.
  destruct (Prim2SF x), (Prim2SF y); cbn; try discriminate; split; discriminate.
Qed.


Lemma ltb_leb x y : (x <? y) = true -> (x <=? y) = true.
Proof.
  rewrite FloatAxioms.ltb_spec, leb_spec. unfold SFltb, SFleb.
  destruct (SFcompare _ _) as [[]|]; congruence.
Qed.

(** The clamp [max(0.0, min(1.0, x))] lands in [0, 1], whatever [x] is. *)
Lemma clamp_bounds x :
  let r := py_max 0 (py_min 1 x) in
  (0 <=? r) = true /\ (r <=? 1) = true /\ ordered r = true.
Proof.
  cbv zeta. unfold py_max, py_min.
  destruct (x <? 1) eqn:H1.
  - destruct (0 <? x) eqn:H0.
    + repeat split; auto using ltb_leb. now apply ltb_true_ordered in H1.
    + repeat split; reflexivity.
  - change (0 <? 1) with true. cbv iota. repeat split; reflexivity.
Qed.

End FloatOrderFacts.

(** ** Text extraction *)

Section Extraction.

Context (libs : PdfLibraries).

Lemma text_stage_source data note :
  text_stage data note =
    let T := strip (decode_ignore data) in
    if 30 <? length T
    then (T, text_fallback, Some (default text_fallback_note note))
    else ([], none, Some no_text_extracted).
Proof.
  unfold text_stage. destruct (strip (decode_ignore data)) as [|c t]; [reflexivity|].
  cbv zeta. destruct (30 <? length (c :: t))%nat; destruct note; reflexivity.
Qed.

Lemma pypdf_stage_flat lib data note :
  pypdf_stage libs lib data note =
    let S := yields (pypdf2_reader libs data) in
    let broke := bool_decide (note = Some pdfminer_failed_used_fallback) in
    if (bool_decide (lib = PyPDF2) || broke) && bool_decide (S <> [])
    then (S, if broke then pypdf_fallback else PyPDF2, if broke then note else None)
    else text_stage data note.
Proof.
  unfold pypdf_stage. cbv zeta.
  destruct (bool_decide (lib = PyPDF2) || _); [|reflexivity].
  destruct (pypdf2_reader libs data) as [pages|msg]; cbn [yields andb].
  - destruct (joined_text pages) as [|c t]; repeat case_bool_decide; done.
  - case_bool_decide; done.
Qed.

(** The three stages as one decision list. *)
Lemma extract_text_flat lib b bs :
  let d := capped (b :: bs) in
  let P := yields (pdfplumber_open libs d) in
  let S := yields (pypdf2_reader libs d) in
  let T := strip (decode_ignore d) in
  let broke := bool_decide (lib = pdfplumber) && structural_failure (pdfplumber_open libs d) in
  let note := if broke then Some pdfminer_failed_used_fallback else None in
  extract_text_from_pdf libs lib (b :: bs) =
    if bool_decide (lib = pdfplumber) && bool_decide (P <> []) then (P, pdfplumber, None)
    else if (bool_decide (lib = PyPDF2) || broke) && bool_decide (S <> [])
    then (S, if broke then pypdf_fallback else PyPDF2, note)
    else if 30 <? length T then (T, text_fallback, Some (default text_fallback_note note))
    else ([], none, Some no_text_extracted).
Proof.
  intros d P S T broke note. subst P S T broke note.
  unfold extract_text_from_pdf. fold d.
  destruct (bool_decide (lib = pdfplumber)) eqn:Hp; cbn [andb].
  - destruct (pdfplumber_open libs d) as [pages|msg]; cbn [yields structural_failure].
    + destruct (joined_text pages) as [|c t]; case_bool_decide; try done.
      rewrite pypdf_stage_flat, text_stage_source. cbv zeta.
      now rewrite (bool_decide_eq_false_2 (None = Some _)) by discriminate.
    + case_bool_decide; try done.
      rewrite pypdf_stage_flat, text_stage_source. cbv zeta.
      destruct (is_pdfminer_error msg).
      * now rewrite (bool_decide_eq_true_2 (Some _ = Some _)) by reflexivity.
      * now rewrite (bool_decide_eq_false_2 (None = Some _)) by discriminate.
  - rewrite pypdf_stage_flat, text_stage_source. cbv zeta.
    now rewrite (bool_decide_eq_false_2 (None = Some _)) by discriminate.
Qed.

(** C6.  [extract_text_from_pdf] returns a triple for every input, whatever
    the libraries do with the bytes (raise when opening, raise on a page,
    find no text).  In the triple the source is ["none"] exactly when the
    text is empty; a result with source ["none"] carries the note
    ["empty_input"] or ["no_text_extracted"]; ["text_input"] is never
    returned. *)
Theorem extract_text_source_none_iff_empty lib data :
  exists text source note,
    extract_text_from_pdf libs lib data = (text, source, note)
    /\ (source = none <-> text = [])
    /\ (source = none -> note = Some empty_input \/ note = Some no_text_extracted)
    /\ source <> text_input.
Proof.
  destruct data as [|b bs].
  - exists [], none, (Some empty_input). cbn. split; [reflexivity|]. split; [tauto|].
    split; [tauto|discriminate].
  - rewrite extract_text_flat. cbv zeta.
    set (P := yields (pdfplumber_open libs (capped (b :: bs)))).
    set (S := yields (pypdf2_reader libs (capped (b :: bs)))).
    set (T := strip (decode_ignore (capped (b :: bs)))).
    destruct (bool_decide (lib = pdfplumber) && bool_decide (P <> [])) eqn:H1;
      [|destruct ((bool_decide (lib = PyPDF2) || _) && bool_decide (S <> [])) eqn:H2;
        [|destruct (30 <? length T) eqn:H3]];
      do 3 eexists; (split; [reflexivity|]).
    + apply andb_true_iff in H1 as [_ H1]. apply bool_decide_eq_true in H1.
      repeat split; try discriminate. intros E. contradiction.
    + apply andb_true_iff in H2 as [_ H2]. apply bool_decide_eq_true in H2.
      destruct (_ && structural_failure _); repeat split; try discriminate;
        intros E; contradiction.
    + apply Nat.ltb_lt in H3.
      repeat split; try discriminate. intros E. rewrite E in H3. cbn in H3. lia.
    + repeat split; auto; discriminate.
Qed.

(** C3, as amended.  On non-empty input the source tag names the stage that
    produced the text.  pdfplumber is asked only when it is the parser's
    library, and its tag is returned exactly when it finds text.  PyPDF2 is
    asked only when it is the parser's library or pdfplumber raised an error
    of the pdfminer class; its text is returned under ["PyPDF2"] in the first
    case and ["pypdf_fallback"] in the second.  Otherwise the bytes are read
    as text, accepted under ["text_fallback"] only when the stripped text is
    longer than 30 characters; else the source is ["none"].  In particular,
    when pdfplumber gives no text and the decoded text is longer than 30
    characters, the source is one of the three fallback tags. *)
Theorem extract_text_source_identifies_path lib b bs :
  let d := capped (b :: bs) in
  let P := yields (pdfplumber_open libs d) in
  let S := yields (pypdf2_reader libs d) in
  let T := strip (decode_ignore d) in
  let primary := lib = pdfplumber /\ P <> [] in
  let broke := lib = pdfplumber /\ structural_failure (pdfplumber_open libs d) = true in
  let secondary := (lib = PyPDF2 \/ broke) /\ S <> [] in
  let r := extract_text_from_pdf libs lib (b :: bs) in
  (r.1.2 = pdfplumber <-> primary)
  /\ (r.1.2 = PyPDF2 <-> ~ primary /\ secondary /\ ~ broke)
  /\ (r.1.2 = pypdf_fallback <-> ~ primary /\ secondary /\ broke)
  /\ (r.1.2 = text_fallback <-> ~ primary /\ ~ secondary /\ 30 < length T)
  /\ (r.1.2 = none <-> ~ primary /\ ~ secondary /\ length T <= 30)
  /\ (r.1.2 = pdfplumber -> r.1.1 = P)
  /\ (r.1.2 = PyPDF2 \/ r.1.2 = pypdf_fallback -> r.1.1 = S)
  /\ (r.1.2 = text_fallback -> r.1.1 = T)
  /\ (~ primary -> 30 < length T ->
      r.1.2 = PyPDF2 \/ r.1.2 = pypdf_fallback \/ r.1.2 = text_fallback).
Proof.
  intros d P S T primary broke secondary r.
  subst r. rewrite extract_text_flat. fold d P S T. cbv zeta.
  assert (HP : structural_failure (pdfplumber_open libs d) = true -> P = []).
  { subst P. destruct (pdfplumber_open libs d); [discriminate|reflexivity]. }
  subst primary broke secondary.
  destruct (structural_failure (pdfplumber_open libs d));
  destruct (Nat.ltb_spec 30 (length T));
  repeat case_bool_decide; cbn [andb orb fst snd];
  try specialize (HP eq_refl);
  intuition (first [congruence | lia]).
Qed.

End Extraction.

(** C3, the counterexample.  A scanned document on which pdfplumber opens
    and finds no text while PyPDF2 would read a line: PyPDF2 is not asked and
    the result is empty.  And bytes that decode to exactly 30 characters, with
    both libraries failing: the source is ["none"]. *)
Lemma extract_text_chain_counterexample :
  ~ stops_at_first_nonempty /\ ~ fallback_from_30.
Proof.
  split.
  - intros H. specialize (H scanned_libs Byte.x25 (ascii_bytes "PDF-1.4 scan")).
    vm_compute in H. specialize (H eq_refl ltac:(discriminate)). discriminate H.
  - intros H.
    specialize (H failing_libs pdfplumber Byte.x61 (ascii_bytes "aaaaaaaaaaaaaaaaaaaaaaaaaaaaa")).
    vm_compute in H. specialize (H eq_refl ltac:(repeat constructor)).
    destruct H as [H|[H|[H|[]]]]; discriminate H.
Qed.

(** ** The parse threshold *)

Section Parse.

Context (libs : PdfLibraries) (self_library : Tag).

(** The threshold is exact: from 40 characters on, a profile is built on the
    gathered text. *)
Lemma parse_resume_long_text ex pdf_bytes text :
  40 <= length (gathered_text libs self_library pdf_bytes text).1.1 ->
  exists p, parse_resume libs self_library ex pdf_bytes text = Parsed_ok p
            /\ raw_text p = (gathered_text libs self_library pdf_bytes text).1.1
            /\ p_experience_years p = extract_experience_years (raw_text p)
            /\ p_hackathons p = extract_hackathon_wins (raw_text p).
Proof.
  unfold parse_resume.
  destruct (gathered_text libs self_library pdf_bytes text) as [[raw library] note].
  cbn [fst snd]. intros H.
  destruct (Nat.ltb_spec (length raw) 40); [lia|].
  eexists. split; [reflexivity|]. cbn. auto.
Qed.

(** C5.  When the gathered text (the extracted text, or the text argument
    when nothing was extracted, stripped) is shorter than 40 characters,
    [parse_resume] returns the failure dict: the error message, the first 500
    characters of that text, the library tag and the note.  The result does
    not depend on the field extractors: none of them is applied. *)
Theorem parse_resume_short_text_is_error ex pdf_bytes text
    (Hshort : length (gathered_text libs self_library pdf_bytes text).1.1 < 40) :
  parse_resume libs self_library ex pdf_bytes text =
    ParseError {|
      error := lit "No meaningful text to parse";
      f_raw_text := firstn 500 (gathered_text libs self_library pdf_bytes text).1.1;
      f_parsing_library := (gathered_text libs self_library pdf_bytes text).1.2;
      f_parsing_note := (gathered_text libs self_library pdf_bytes text).2 |}
  /\ forall ex', parse_resume libs self_library ex' pdf_bytes text
                 = parse_resume libs self_library ex pdf_bytes text.
Proof.
  unfold parse_resume.
  destruct (gathered_text libs self_library pdf_bytes text) as [[raw library] note].
  cbn [fst snd] in *.
  destruct (Nat.ltb_spec (length raw) 40); [|lia].
  split; [reflexivity|]. intros ex'. reflexivity.
Qed.

End Parse.

Lemma parse_resume_short_text_witness :
  length (gathered_text failing_libs pdfplumber
            (Some (ascii_bytes "Jane Doe, engineer, 5 years Python")) None).1.1 < 40
  /\ is_error (parse_resume failing_libs pdfplumber no_extractors
                 (Some (ascii_bytes "Jane Doe, engineer, 5 years Python")) None) = true.
Proof.
  split; [vm_compute; lia|].
  rewrite (proj1 (parse_resume_short_text_is_error failing_libs pdfplumber no_extractors
                    (Some (ascii_bytes "Jane Doe, engineer, 5 years Python")) None
                    ltac:(vm_compute; lia))).
  reflexivity.
Defined.

(** ** Competition achievements *)

Lemma last_or_cons before c s : last_or before (c :: s) = last_or (Some c) s.
Proof.
  unfold last_or. destruct s as [|d s]; [reflexivity|].
  change (last (c :: d :: s)) with (last (d :: s)).
  destruct (last (d :: s)) eqn:E; [reflexivity|].
  apply last_None in E. discriminate.
Qed.

Lemma word_here_eq before s w :
  word_here before s w =
  boundary before s
  && match strip_prefix w s with
     | Some rest => boundary (last_or before w) rest
     | None => false
     end.
Proof. reflexivity. Qed.

Lemma strip_prefix_Some p s rest : strip_prefix p s = Some rest <-> s = p ++ rest.
Proof.
  revert s. induction p as [|a p IH]; intros s; cbn.
  - split; [intros [= ->]|intros ->]; reflexivity.
  - destruct s as [|b s]; [split; discriminate|].
    destruct (N.eqb_spec a b) as [->|Hne].
    + rewrite IH. split; [intros ->|intros [= ->]]; reflexivity.
    + split; [discriminate|intros [= ? ?]; congruence].
Qed.

(** [re.search] with word boundaries: some listed word stands in the text
    with a boundary on each side. *)
Lemma search_from_spec words before s :
  search_from words before s = true <->
  exists pre w post,
    s = pre ++ w ++ post /\ In w words
    /\ boundary (last_or before pre) (w ++ post) = true
    /\ boundary (last_or (last_or before pre) w) post = true.
Proof.
  revert before. induction s as [|c s IH]; intros before.
  - cbn [search_from]. rewrite orb_false_r, existsb_exists. split.
    + intros (w & Hw & H). rewrite word_here_eq in H.
      apply andb_true_iff in H as [Hb H].
      destruct (strip_prefix w []) as [rest|] eqn:E; [|discriminate].
      apply strip_prefix_Some in E.
      exists [], w, rest. cbn. rewrite <- E. auto.
    + intros (pre & w & post & E & Hw & Hb1 & Hb2).
      symmetry in E. apply app_eq_nil in E as [-> E].
      exists w. split; [assumption|]. rewrite word_here_eq.
      cbn in Hb1, Hb2. rewrite E in Hb1. rewrite Hb1. cbn.
      apply app_eq_nil in E as [-> ->]. cbn. exact Hb2.
  - cbn [search_from]. rewrite orb_true_iff, existsb_exists, IH. split.
    + intros [(w & Hw & H)|(pre & w & post & E & Hw & Hb1 & Hb2)].
      * rewrite word_here_eq in H. apply andb_true_iff in H as [Hb H].
        destruct (strip_prefix w (c :: s)) as [rest|] eqn:E; [|discriminate].
        apply strip_prefix_Some in E.
        exists [], w, rest. cbn. rewrite <- E. auto.
      * exists (c :: pre), w, post. rewrite !last_or_cons. cbn. rewrite E. auto.
    + intros (pre & w & post & E & Hw & Hb1 & Hb2).
      destruct pre as [|c' pre].
      * left. exists w. split; [assumption|]. rewrite word_here_eq.
        cbn in E, Hb1, Hb2. rewrite E, Hb1. cbn.
        assert (Hs : strip_prefix w (w ++ post) = Some post) by now apply strip_prefix_Some.
        rewrite Hs. exact Hb2.
      * right. cbn in E. injection E as -> ->.
        rewrite !last_or_cons in Hb1, Hb2. exists pre, w, post. auto.
Qed.

Section Hackathons.

Context (text : str).


(** One turn of the loop adds the entry of a keyword that occurs. *)
Lemma hackathon_step_hit found wins kw :
  hackathon_step text (found, wins) kw =
    if contains kw (lower text)
    then (found ++ [entry_of text kw], bump (placement (entry_of text kw)) wins)
    else (found, wins).
Proof.
  unfold hackathon_step, contains, entry_of, window, snippet_at.
  destruct (find kw (lower text)); reflexivity.
Qed.

Lemma hackathon_loop kws found wins :
  fold_left (hackathon_step text) kws (found, wins) =
    let new := map (entry_of text) (filter (fun kw => contains kw (lower text) = true) kws) in
    (found ++ new, fold_left (fun w a => bump (placement a) w) new wins).
Proof.
  revert found wins. induction kws as [|kw kws IH]; intros found wins; cbn [fold_left].
  - cbn. now rewrite app_nil_r.
  - rewrite hackathon_step_hit, filter_cons.
    destruct (contains kw (lower text)) eqn:E.
    + rewrite decide_True by reflexivity. rewrite IH. cbn. now rewrite <- app_assoc.
    + rewrite decide_False by discriminate. apply IH.
Qed.

Lemma bump_counts new wins :
  let wins' := fold_left (fun w a => bump (placement a) w) new wins in
  n_first wins' = n_first wins + placed first new
  /\ n_second wins' = n_second wins + placed second new
  /\ n_third wins' = n_third wins + placed third new
  /\ n_finalist wins' = n_finalist wins + placed finalist new
  /\ n_participant wins' = n_participant wins + placed participant new.
Proof.
  revert wins. induction new as [|a new IH]; intros wins; cbn [fold_left].
  - unfold placed. cbn. lia.
  - cbv zeta in *. destruct (IH (bump (placement a) wins)) as (H1 & H2 & H3 & H4 & H5).
    rewrite H1, H2, H3, H4, H5. unfold placed. rewrite !filter_cons.
    destruct (placement a); repeat case_decide; try congruence; cbn; lia.
Qed.

End Hackathons.

Lemma last_or_None s : last_or None s = last s.
Proof. unfold last_or. now destruct (last s). Qed.

Lemma last_or_last pre w : last_or (last pre) w = last (pre ++ w).
Proof.
  unfold last_or. destruct w as [|c w] using rev_ind.
  - now rewrite app_nil_r.
  - now rewrite app_assoc, !last_snoc.
Qed.

Lemma search_words_spec words s : search_words words s = true <-> stands_in words s.
Proof.
  unfold search_words, stands_in. rewrite search_from_spec.
  split; intros (pre & w & post & H); exists pre, w, post;
    rewrite !last_or_None, last_or_last in *; exact H.
Qed.

(** The placement read off a snippet: the first tier whose words stand in
    it; never [finalist]. *)
Lemma placement_of_spec snippet :
  (placement_of snippet = first <-> stands_in FIRST_WORDS snippet)
  /\ (placement_of snippet = second <->
      ~ stands_in FIRST_WORDS snippet /\ stands_in SECOND_WORDS snippet)
  /\ (placement_of snippet = third <->
      ~ stands_in FIRST_WORDS snippet /\ ~ stands_in SECOND_WORDS snippet
      /\ stands_in THIRD_WORDS snippet)
  /\ (placement_of snippet = participant <->
      ~ stands_in FIRST_WORDS snippet /\ ~ stands_in SECOND_WORDS snippet
      /\ ~ stands_in THIRD_WORDS snippet)
  /\ placement_of snippet <> finalist.
Proof.
  unfold placement_of. rewrite <- !search_words_spec.
  destruct (search_words FIRST_WORDS snippet), (search_words SECOND_WORDS snippet),
    (search_words THIRD_WORDS snippet); intuition congruence.
Qed.


(** [find] gives the first place where the pattern stands. *)
Lemma find_spec p s idx :
  find p s = Some idx <->
  startswith p (skipn idx s) = true /\ idx <= length s
  /\ forall j, j < idx -> startswith p (skipn j s) = false.
Proof.
  revert idx. induction s as [|c s IH]; intros idx.
  - cbn [find]. destruct (startswith p []) eqn:E.
    + split.
      * intros [= <-]. cbn. repeat split; [assumption|lia|lia].
      * intros (_ & Hl & _). cbn in Hl. f_equal. lia.
    + split; [discriminate|]. intros (H & _ & _).
      rewrite skipn_nil in H. congruence.
  - cbn [find]. destruct (startswith p (c :: s)) eqn:E.
    + split.
      * intros [= <-]. cbn [skipn]. repeat split; [assumption|lia|lia].
      * intros (_ & _ & Hj). destruct idx as [|idx]; [reflexivity|].
        specialize (Hj 0 ltac:(lia)). cbn in Hj. congruence.
    + destruct idx as [|idx].
      * split.
        -- destruct (find p s); discriminate.
        -- intros (H & _). cbn in H. congruence.
      * split.
        -- destruct (find p s) as [i|] eqn:F; [|discriminate].
           intros [= <-]. destruct (proj1 (IH i) eq_refl) as (H1 & H2 & H3). cbn [skipn length].
           repeat split; [assumption|lia|].
           intros [|j] Hj; [exact E|]. cbn [skipn]. apply H3. lia.
        -- intros (H1 & H2 & H3). cbn [skipn length] in *.
           assert (F : find p s = Some idx).
           { apply IH. repeat split; [assumption|lia|].
             intros j Hj. apply (H3 (S j)). lia. }
           now rewrite F.
Qed.


(** ** Experience years *)

Section ExperienceYears.

Local Open Scope nat_scope.

Abbreviation spacey := (Forall (fun c => isspace c = true)).
Abbreviation digity := (Forall (fun c => isdigit c = true)).
















Abbreviation nondigity := (Forall (fun c => isdigit c = false)).















End ExperienceYears.

(** ** Cosine similarity *)

Section Cosine.

Local Open Scope float_scope.

Lemma eqb_zero x : (x =? 0) = true -> x = 0 \/ x = (-0).
Proof.
  rewrite FloatAxioms.eqb_spec. unfold SFeqb.
  change (Prim2SF 0) with (S754_zero false).
  intros H. pose proof (SF2Prim_Prim2SF x) as Ex.
  destruct (Prim2SF x) as [s|s| |s m e]; try (destruct s);
    try discriminate H; rewrite <- Ex; [right|left]; reflexivity.
Qed.

Lemma dot_from_zero v : zero_vector v -> dot_from 0 v v = 0.
Proof.
  induction 1 as [|x v Hx _ IH]; [reflexivity|].
  cbn [dot_from]. apply eqb_zero in Hx as [-> | ->]; exact IH.
Qed.

Lemma np_norm_zero v : zero_vector v -> np_norm v = 0.
Proof. intros H. unfold np_norm. now rewrite dot_from_zero. Qed.

Lemma np_dot_aligned a b :
  length a = length b -> np_dot a b = Ok (dot_from 0 a b).
Proof. intros H. unfold np_dot. now rewrite H, Nat.eqb_refl. Qed.

Lemma np_dot_not_aligned a b :
  length a <> length b -> np_dot a b = Raise ValueError.
Proof. intros H. unfold np_dot. apply Nat.eqb_neq in H. now rewrite H. Qed.

(** C9, as amended.  For two vectors of the same length
    [cosine_similarity] returns 0.0 when one of the norms is zero, and the
    dot product over the product of the norms otherwise, with no exception;
    a vector whose components are all zero has norm zero, so the result is
    0.0.  For vectors of different lengths [np.dot] raises [ValueError]. *)
Theorem cosine_similarity_aligned a b (Hlen : length a = length b) :
  cosine_similarity a b =
    Ok (if (np_norm a =? 0) || (np_norm b =? 0) then 0
        else dot_from 0 a b / (np_norm a * np_norm b))
  /\ (zero_vector a \/ zero_vector b -> cosine_similarity a b = Ok 0)
  /\ forall c, length a <> length c -> cosine_similarity a c = Raise ValueError.
Proof.
  unfold cosine_similarity. rewrite (np_dot_aligned a b Hlen).
  split; [now destruct (_ || _)|]. split.
  - intros [H|H]; rewrite (np_norm_zero _ H).
    + reflexivity.
    + change (0 =? 0) with true. now rewrite orb_true_r.
  - intros c Hc. now rewrite (np_dot_not_aligned a c Hc).
Qed.

Lemma cosine_similarity_aligned_witness :
  length [0; -0; 0] = length [0.3; 0.4; 1.5]
  /\ cosine_similarity [0; -0; 0] [0.3; 0.4; 1.5] = Ok 0.
Proof.
  split; [reflexivity|].
  apply (cosine_similarity_aligned [0; -0; 0] [0.3; 0.4; 1.5] eq_refl).
  left. repeat constructor.
Defined.

(** C9, the counterexample: a zero vector of length 1 against a vector of
    length 2 raises [ValueError]. *)
Lemma cosine_similarity_counterexample : ~ cosine_as_stated.
Proof.
  intros H. destruct (H [0] [1; 2]) as [[r Hr] _].
  vm_compute in Hr. discriminate Hr.
Qed.

End Cosine.

(** ** Scoring *)

Section Scoring.

Local Open Scope float_scope.

(** C1.  The score of a match is the weighted sum of the five sub-scores
    (0.45, 0.25, 0.15, 0.06 and 0.04), plus [min(shared * 0.02, 0.12)] for
    the shared skills, clamped by [max(0.0, min(1.0, .))]; it lies between
    0.0 and 1.0 for every input. *)
Theorem match_score_is_clamped_weighted_sum user_data project_data :
  let overlap := calculate_skill_overlap (skills user_data) (required_skills project_data) in
  let emb :=
    if truthy_list (embedding user_data) && truthy_list (p_embedding project_data)
    then calculate_embedding_score (embedding user_data) (p_embedding project_data)
    else 0.5 in
  let role := (calculate_role_match (roles user_data) (required_roles project_data)).1 in
  let exp := calculate_experience_fit (experience_years user_data)
               (min_experience project_data) (max_experience project_data) in
  let avail := calculate_availability_score (timezone user_data) (p_timezone project_data) in
  let m := match_user_to_project user_data project_data in
  shared_skills m = overlap.1.2
  /\ score m = spec_score overlap.1.1 emb role exp avail (length (shared_skills m))
  /\ (0 <=? score m) = true /\ (score m <=? 1) = true.
Proof.
  cbv zeta. unfold match_user_to_project, match_with.
  destruct (calculate_skill_overlap _ _) as [[skill shared] comp].
  destruct (calculate_role_match _ _) as [role matched].
  cbn [score shared_skills fst snd].
  split; [reflexivity|]. split; [reflexivity|].
  split; apply clamp_bounds.
Qed.

(** C10.  The table [WEIGHTS] holds 0.05 under ["hackathon_bonus"], and the
    match does not depend on it: any other value gives the same match.  Nor
    does it depend on the competition data of the profile.  With all five
    sub-scores at 1.0 the weighted sum is 0.95. *)
Theorem match_ignores_hackathons W user_data project_data h w :
  hackathon_bonus WEIGHTS = 0.05
  /\ match_with (set_hackathon_bonus w W) user_data project_data
     = match_with W user_data project_data
  /\ match_user_to_project (with_hackathons h user_data) project_data
     = match_user_to_project user_data project_data
  /\ weighted_sum WEIGHTS 1 1 1 1 1 = 0.95
  /\ (weighted_sum WEIGHTS 1 1 1 1 1 <=? 0.95) = true.
Proof.
  split; [reflexivity|]. split; [reflexivity|]. split; [reflexivity|].
  split; reflexivity.
Qed.

Section SkillOverlap.

Context (f : str -> str).


End SkillOverlap.




End Scoring.

(** ** Ranking *)

Section Ranking.

Local Open Scope float_scope.

(** The lexicographic order on codes, as propositions. *)
Lemma lex_compare_spec a b :
  CompareSpec (a = b) (lex_lt a b) (lex_lt b a) (lex_compare a b).
Proof.
  destruct a as [[a1 a2] a3], b as [[b1 b2] b3]. unfold lex_compare, lex_lt. cbn [fst snd].
  destruct (Z.compare_spec a1 b1); [|constructor; lia|constructor; lia].
  destruct (Z.compare_spec a2 b2); [|constructor; lia|constructor; lia].
  destruct (Z.compare_spec a3 b3); constructor; [congruence|lia|lia].
Qed.

Lemma lex_lt_irrefl a : ~ lex_lt a a.
Proof. lex_solve. Qed.

Lemma lex_lt_asym a b : lex_lt a b -> ~ lex_lt b a.
Proof. lex_solve. Qed.

Lemma lex_lt_trans a b c : lex_lt a b -> lex_lt b c -> lex_lt a c.
Proof. lex_solve. Qed.







Lemma insert_desc_perm x l : Permutation (insert_desc x l) (x :: l).
Proof.
  induction l as [|y l IH]; cbn [insert_desc]; [reflexivity|].
  destruct (key_lt _ _); [|reflexivity].
  rewrite IH. apply perm_swap.
Qed.

Lemma sort_desc_perm l : Permutation (sort_desc l) l.
Proof.
  induction l as [|x l IH]; cbn [sort_desc]; [reflexivity|].
  rewrite insert_desc_perm. now constructor.
Qed.











End Ranking.

(* ===================================================================== *)
(** * Further properties                                                  *)
(* ===================================================================== *)

(** ** The lists of a skill overlap *)

Section OverlapLists.






End OverlapLists.

(** ** Role match *)

Section RoleMatch.

Local Open Scope N_scope.



Local Close Scope N_scope.


End RoleMatch.

(** ** Experience fit *)

Section ExperienceFit.

Import EngineChecks.

Local Open Scope float_scope.

Lemma gaps_cover (p : Z -> bool) (n : nat) (gap : Z) :
  forallb p (gaps n) = true -> (1 <= gap <= Z.of_nat n)%Z -> p gap = true.
Proof.
  intros H Hg. rewrite forallb_forall in H. apply H. unfold gaps.
  apply in_map_iff. exists (Z.to_nat gap). split; [lia|]. apply in_seq. lia.
Qed.

Lemma penalties_checked :
  forallb penalty_below_ok (gaps max_gap) = true
  /\ forallb penalty_above_ok (gaps max_gap) = true.
Proof. split; vm_compute; reflexivity. Qed.

(** X3.  For gaps of up to 10000 years, the experience fit is 1.0 exactly
    when the years of the user lie in the range of the project, and is a
    penalty below 1.0 otherwise: never under 0.5 for too little experience,
    never under 0.7 for too much, and equal to these floors from 4 years
    below the range and from 6 years above it. *)
Theorem experience_fit_floors (user_exp lo hi : Z)
    (Hlo : (lo - user_exp <= 10000)%Z) (Hhi : (user_exp - hi <= 10000)%Z) :
  let fit := calculate_experience_fit user_exp lo hi in
  (0.5 <=? fit) = true
  /\ (fit <=? 1) = true
  /\ ((fit =? 1) = true <-> (lo <= user_exp <= hi)%Z)
  /\ ((lo <= user_exp)%Z -> (0.7 <=? fit) = true)
  /\ ((user_exp + 4 <= lo)%Z -> fit = 0.5)
  /\ ((lo <= user_exp)%Z -> (hi + 6 <= user_exp)%Z -> fit = 0.7).
Proof.
  cbv zeta. unfold calculate_experience_fit. cbv zeta.
  destruct penalties_checked as [Hb Ha].
  destruct (Z.ltb_spec user_exp lo) as [L|L].
  - pose proof (gaps_cover _ _ (lo - user_exp)%Z Hb ltac:(unfold max_gap; lia)) as H.
    unfold penalty_below_ok in H. fold (penalty_below (lo - user_exp)).
    apply andb_prop in H as [H H4]. apply andb_prop in H as [H H3].
    apply andb_prop in H as [H1 H2]. apply negb_true_iff in H3.
    split; [exact H1|]. split; [now apply ltb_leb|].
    split; [split; [congruence|lia]|]. split; [lia|].
    split; [|lia]. intros G. apply orb_prop in H4 as [H4|H4].
    + apply Z.ltb_lt in H4. lia.
    + now apply Leibniz.eqb_spec.
  - destruct (Z.ltb_spec hi user_exp) as [G|G].
    + pose proof (gaps_cover _ _ (user_exp - hi)%Z Ha ltac:(unfold max_gap; lia)) as H.
      unfold penalty_above_ok in H. fold (penalty_above (user_exp - hi)).
      apply andb_prop in H as [H H4]. apply andb_prop in H as [H H3].
      apply andb_prop in H as [H H2]. apply andb_prop in H as [H0 H1].
      apply negb_true_iff in H3.
      split; [exact H0|]. split; [now apply ltb_leb|].
      split; [split; [congruence|lia]|]. split; [intros _; exact H1|].
      split; [lia|]. intros _ G6. apply orb_prop in H4 as [H4|H4].
      * apply Z.ltb_lt in H4. lia.
      * now apply Leibniz.eqb_spec.
    + split; [reflexivity|]. split; [reflexivity|].
      split; [split; [lia|reflexivity]|]. split; [reflexivity|]. split; lia.
Qed.

Lemma experience_fit_floors_witness :
  (5 - 2 <= 10000)%Z /\ (2 - 10 <= 10000)%Z
  /\ (0.5 <=? calculate_experience_fit 2 5 10) = true.
Proof.
  split; [lia|]. split; [lia|].
  apply (experience_fit_floors 2 5 10 ltac:(lia) ltac:(lia)).
Defined.

End ExperienceFit.

(** ** The reasons of a match *)

Section Reasons.

Local Open Scope float_scope.

Lemma py_max_one_positive y : (py_max 1 y <=? 0) = false.
Proof.
  unfold py_max. destruct (1 <? y) eqn:E; [|reflexivity].
  destruct (ltb_true_ordered _ _ E) as [_ Oy].
  apply (ltb_ordered 1 y eq_refl Oy) in E.
  apply not_true_is_false. intros H.
  apply (leb_ordered y 0 Oy eq_refl) in H. apply H.
  pose proof (lex_compare_spec (fcode 1) (fcode y)) as S1. rewrite E in S1.
  inversion S1 as [| L |].
  assert (L0 : lex_lt (fcode 0) (fcode y)).
  { eapply lex_lt_trans; [|exact L]. left. reflexivity. }
  destruct (lex_compare_spec (fcode y) (fcode 0)) as [Q|Q|Q]; [| |reflexivity].
  - rewrite Q in L0. now apply lex_lt_irrefl in L0.
  - now apply lex_lt_asym in L0.
Qed.

(** X4.  The reasons of a match.  There are at most five.  ["Strong skill
    match!"] is only given together with, and right after, the count of
    matched skills, which needs at least one shared skill; without a shared
    skill neither of the two is given.  The profile similarity is only
    reported above 0.7, and never when one of the embeddings is missing or
    empty. *)
Theorem match_reasons_shape (user_data : UserData) (project_data : ProjectData) :
  let m := match_user_to_project user_data project_data in
  length (reasons m) <= 5
  /\ (StrongSkillMatch ∈ reasons m ->
        shared_skills m <> []
        /\ exists rest,
             reasons m = SkillsMatched (length (shared_skills m))
                           (length (required_skills project_data))
                         :: StrongSkillMatch :: rest)
  /\ (shared_skills m = [] ->
        (StrongSkillMatch ∉ reasons m)
        /\ forall n k, (SkillsMatched n k ∉ reasons m))
  /\ (forall e, ProfileSimilarity e ∈ reasons m ->
        (0.7 <? e) = true
        /\ truthy_list (embedding user_data) = true
        /\ truthy_list (p_embedding project_data) = true).
Proof.
  cbv zeta. unfold match_user_to_project, match_with.
  destruct (calculate_skill_overlap _ _) as [[skill shared] comp].
  destruct (calculate_role_match _ _) as [role matched].
  cbn [reasons shared_skills]. unfold build_reasons.
  set (emb := if truthy_list (embedding user_data) && truthy_list (p_embedding project_data)
              then _ else _).
  set (required_count := length (required_skills project_data)).
  set (R3 := match matched with [] => [] | _ => [RoleFit matched] end).
  set (R4 := if Nat.leb 3 (length comp) then [BonusSkills (length comp)] else []).
  set (R5 := if 0.7 <? emb then [ProfileSimilarity emb] else []).
  assert (L3 : length R3 <= 1) by (unfold R3; destruct matched; cbn; lia).
  assert (L4 : length R4 <= 1) by (unfold R4; destruct (Nat.leb _ _); cbn; lia).
  assert (L5 : length R5 <= 1) by (unfold R5; destruct (0.7 <? emb); cbn; lia).
  assert (N3 : forall r, r ∈ R3 -> exists l, r = RoleFit l).
  { unfold R3. destruct matched; intros r Hr; [now apply elem_of_nil in Hr|].
    apply list_elem_of_singleton in Hr. eexists; exact Hr. }
  assert (N4 : forall r, r ∈ R4 -> exists n, r = BonusSkills n).
  { unfold R4. destruct (Nat.leb _ _); intros r Hr; [|now apply elem_of_nil in Hr].
    apply list_elem_of_singleton in Hr. eexists; exact Hr. }
  assert (N5 : forall r, r ∈ R5 -> r = ProfileSimilarity emb /\ (0.7 <? emb) = true).
  { unfold R5. destruct (0.7 <? emb); intros r Hr; [|now apply elem_of_nil in Hr].
    apply list_elem_of_singleton in Hr. now split. }
  assert (T : forall r, r ∈ R3 ++ R4 ++ R5 ->
                (exists l, r = RoleFit l) \/ (exists n, r = BonusSkills n)
                \/ (r = ProfileSimilarity emb /\ (0.7 <? emb) = true)).
  { intros r Hr. apply elem_of_app in Hr as [Hr|Hr]; [left; now apply N3|].
    apply elem_of_app in Hr as [Hr|Hr]; [right; left; now apply N4|].
    right; right; now apply N5. }
  assert (Tail : forall r, r ∈ R3 ++ R4 ++ R5 ->
                   r <> StrongSkillMatch /\ forall n k, r <> SkillsMatched n k).
  { intros r Hr. destruct (T r Hr) as [[l E]|[[n E]|[E _]]]; rewrite E;
      (split; [discriminate|intros; discriminate]). }
  destruct shared as [|s0 shared'].
  - cbn [length Nat.ltb Nat.leb]. change (of_nat 0) with 0.
    rewrite !py_max_one_positive. cbn [app].
    split; [rewrite !length_app; lia|].
    split; [intros H; exfalso; exact (proj1 (Tail _ H) eq_refl)|].
    split.
    + intros _. split; [intros H; exact (proj1 (Tail _ H) eq_refl)|].
      intros n k H. exact (proj2 (Tail _ H) n k eq_refl).
    + intros e He. destruct (T _ He) as [[l Hl]|[[n Hn]|[Hs Hgt]]]; try discriminate.
      injection Hs as ->. split; [exact Hgt|].
      unfold emb in Hgt |- *.
      destruct (truthy_list (embedding user_data)), (truthy_list (p_embedding project_data));
        cbn [andb] in Hgt; try discriminate Hgt; now split.
  - change (Nat.ltb 0 (length (s0 :: shared'))) with true. cbv iota.
    set (R2 := if _ <=? _ then [StrongSkillMatch] else []).
    assert (L2 : length R2 <= 1) by (unfold R2; destruct (_ <=? _); cbn; lia).
    split; [cbn [app length]; rewrite !length_app; lia|].
    split.
    + intros H. split; [discriminate|]. cbn [app] in H |- *.
      unfold R2 in H |- *. destruct (_ <=? _).
      * eexists. reflexivity.
      * cbn [app] in H. apply elem_of_cons in H as [H|H]; [discriminate|].
        exfalso; exact (proj1 (Tail _ H) eq_refl).
    + split; [discriminate|].
      intros e He. cbn [app] in He. apply elem_of_cons in He as [He|He]; [discriminate|].
      apply elem_of_app in He as [He|He].
      { unfold R2 in He. destruct (_ <=? _); [|now apply elem_of_nil in He].
        apply list_elem_of_singleton in He. discriminate. }
      destruct (T _ He) as [[l Hl]|[[n Hn]|[Hs Hgt]]]; try discriminate.
      injection Hs as ->. split; [exact Hgt|].
      unfold emb in Hgt |- *.
      destruct (truthy_list (embedding user_data)), (truthy_list (p_embedding project_data));
        cbn [andb] in Hgt; try discriminate Hgt; now split.
Qed.

End Reasons.

(** ** Embedding score *)

Section EmbeddingScore.

Local Open Scope float_scope.

(** X5.  [calculate_embedding_score] returns a number for every pair of
    arguments: 0.0 when an embedding is [None], 0.0 when the two vectors
    differ in length (the exception of the engine is swallowed), 0.0 when
    one of two vectors of the same length is all zeros, and otherwise what
    [cosine_similarity] computes. *)
Theorem embedding_score_swallows_errors (emb1 emb2 : option (list float)) :
  (emb1 = None \/ emb2 = None -> calculate_embedding_score emb1 emb2 = 0)
  /\ forall a b, emb1 = Some a -> emb2 = Some b ->
       (length a <> length b -> calculate_embedding_score emb1 emb2 = 0)
       /\ (length a = length b -> zero_vector a \/ zero_vector b ->
             calculate_embedding_score emb1 emb2 = 0)
       /\ (length a = length b ->
             calculate_embedding_score emb1 emb2
             = if (np_norm a =? 0) || (np_norm b =? 0) then 0
               else dot_from 0 a b / (np_norm a * np_norm b)).
Proof.
  split.
  - intros [-> | ->]; [reflexivity|]. now destruct emb1.
  - intros a b -> ->. unfold calculate_embedding_score, cosine_similarity.
    split; [|split].
    + intros H. now rewrite (np_dot_not_aligned a b H).
    + intros H Z. rewrite (np_dot_aligned a b H).
      destruct Z as [Z|Z]; rewrite (np_norm_zero _ Z).
      * reflexivity.
      * change (0 =? 0) with true. now rewrite orb_true_r.
    + intros H. rewrite (np_dot_aligned a b H). now destruct (_ || _).
Qed.

End EmbeddingScore.

(** ** Slices of a ranking *)

Section RankSlices.

Lemma sort_desc_length l : length (sort_desc l) = length l.
Proof. apply Permutation_length, sort_desc_perm. Qed.

(** X6.  Asking [rank_candidates] for more matches never changes the ones
    already given: for [0 <= k <= k'] the ranking of [k] matches is the
    beginning of the ranking of [k']. *)
Theorem rank_candidates_pages_agree candidates project_data (k k' : Z)
    (Hk : (0 <= k)%Z) (Hk' : (k <= k')%Z) :
  rank_candidates candidates project_data k
  `prefix_of` rank_candidates candidates project_data k'.
Proof.
  unfold rank_candidates, slice_to.
  destruct (Z.ltb_spec k 0); [lia|]. destruct (Z.ltb_spec k' 0); [lia|].
  set (l := sort_desc _).
  replace (firstn (Z.to_nat k) l) with (firstn (Z.to_nat k) (firstn (Z.to_nat k') l)).
  - apply prefix_take.
  - rewrite take_take. f_equal. lia.
Qed.

Lemma rank_candidates_pages_agree_witness :
  (0 <= 1)%Z /\ (1 <= 2)%Z
  /\ rank_candidates [bob; alice] backend_project 1
     `prefix_of` rank_candidates [bob; alice] backend_project 2.
Proof.
  split; [lia|]. split; [lia|].
  apply (rank_candidates_pages_agree [bob; alice] backend_project 1 2); lia.
Defined.

(** X7.  A negative [top_k] does not give an empty ranking: it drops the
    last [-top_k] matches of the full ranking, so the result is empty only
    when there are no more than [-top_k] candidates. *)
Theorem rank_candidates_negative_top_k candidates project_data (top_k : Z)
    (Hk : (top_k < 0)%Z) :
  let all := rank_candidates candidates project_data (Z.of_nat (length candidates)) in
  let ranked := rank_candidates candidates project_data top_k in
  length all = length candidates
  /\ ranked = firstn (length candidates - Z.to_nat (- top_k)) all
  /\ length ranked = length candidates - Z.to_nat (- top_k)
  /\ (ranked = [] <-> (Z.of_nat (length candidates) <= - top_k)%Z).
Proof.
  cbv zeta. unfold rank_candidates, slice_to.
  destruct (Z.ltb_spec top_k 0); [|lia].
  destruct (Z.ltb_spec (Z.of_nat (length candidates)) 0); [lia|].
  set (l := sort_desc _).
  assert (Hl : length l = length candidates).
  { unfold l. now rewrite sort_desc_length, length_map. }
  rewrite Hl, Nat2Z.id.
  assert (Ha : firstn (length candidates) l = l).
  { rewrite <- Hl. apply firstn_all. }
  rewrite Ha.
  replace (Z.to_nat (Z.of_nat (length candidates) + top_k))
    with (length candidates - Z.to_nat (- top_k)) by lia.
  split; [exact Hl|]. split; [reflexivity|].
  assert (Hn : length (firstn (length candidates - Z.to_nat (- top_k)) l)
               = length candidates - Z.to_nat (- top_k)).
  { rewrite length_firstn. lia. }
  split; [exact Hn|]. split.
  - intros E. rewrite E in Hn. cbn in Hn. lia.
  - intros E. apply length_zero_iff_nil. rewrite Hn. lia.
Qed.

Lemma rank_candidates_negative_top_k_witness :
  (-1 < 0)%Z
  /\ length (rank_candidates [bob; alice] backend_project (-1)) = 2 - Z.to_nat (- -1).
Proof.
  split; [lia|].
  apply (rank_candidates_negative_top_k [bob; alice] backend_project (-1) ltac:(lia)).
Defined.

End RankSlices.

(** ** A project without requirements *)

Section Unconstrained.

Import EngineChecks.

Local Open Scope float_scope.




End Unconstrained.

(** ** Stripped text *)

Section Strip.

Import ParserWords.

Lemma lstrip_split s :
  exists w, s = w ++ lstrip s /\ Forall (fun c => isspace c = true) w.
Proof.
  induction s as [|c s (w & E & Hw)]; [now exists []|]. cbn [lstrip].
  destruct (isspace c) eqn:Hc.
  - exists (c :: w). split; [cbn; now rewrite <- E|now constructor].
  - now exists [].
Qed.

Lemma lstrip_head s : no_space_head (lstrip s).
Proof.
  induction s as [|c s IH]; [exact I|]. cbn [lstrip].
  destruct (isspace c) eqn:Hc; [exact IH|exact Hc].
Qed.

Lemma lstrip_id s : no_space_head s -> lstrip s = s.
Proof. destruct s as [|c s]; [reflexivity|]. cbn. now intros ->. Qed.

Lemma rstrip_split s :
  exists w, s = rstrip s ++ w /\ Forall (fun c => isspace c = true) w.
Proof.
  unfold rstrip. destruct (lstrip_split (rev s)) as (w & E & Hw).
  exists (rev w). split.
  - rewrite <- rev_app_distr, <- E. now rewrite rev_involutive.
  - now apply Forall_rev.
Qed.

Lemma rstrip_last s :
  rstrip s = [] \/ exists d, last (rstrip s) = Some d /\ isspace d = false.
Proof.
  unfold rstrip. pose proof (lstrip_head (rev s)) as H.
  destruct (lstrip (rev s)) as [|d t]; [now left|]. right. exists d.
  cbn [rev]. rewrite last_snoc. now split.
Qed.

Lemma strip_stripped s : stripped (strip s).
Proof.
  unfold strip. pose proof (lstrip_head s) as Hh.
  destruct (rstrip_split (lstrip s)) as (w & E & Hw).
  destruct (rstrip_last (lstrip s)) as [->|(d & Hd & Hs)]; [exact I|].
  destruct (rstrip (lstrip s)) as [|c t] eqn:R; [exact I|].
  split; [|now exists d]. rewrite E in Hh. exact Hh.
Qed.

Lemma stripped_strip s : stripped s -> strip s = s.
Proof.
  destruct s as [|c t]; [reflexivity|]. intros [Hc (d & Hd & Hs)].
  unfold strip. rewrite (lstrip_id (c :: t)) by exact Hc.
  unfold rstrip.
  destruct (exists_last (l := c :: t) ltac:(discriminate)) as (t' & d' & E).
  rewrite E in Hd |- *. rewrite last_snoc in Hd. injection Hd as ->.
  rewrite rev_app_distr. cbn [rev app lstrip]. rewrite Hs.
  change (d :: rev t') with (rev [d] ++ rev t'). rewrite <- rev_app_distr.
  apply rev_involutive.
Qed.

Lemma strip_idem s : strip (strip s) = strip s.
Proof. apply stripped_strip, strip_stripped. Qed.

End Strip.

(** ** Extraction: the size cap *)

Section Cap.

Import ParserWords.

Lemma prefix_N_app {A} (n : N) (l e : list A) :
  (n <= N.of_nat (length l))%N -> prefix_N n (l ++ e) = prefix_N n l.
Proof.
  revert n. induction l as [|x l IH]; intros n H.
  - cbn in H. assert (n = 0%N) as -> by lia. now destruct e.
  - cbn [app prefix_N]. destruct (N.eqb_spec n 0); [reflexivity|].
    f_equal. apply IH. cbn [length] in H. lia.
Qed.

Lemma prefix_N_all {A} (n : N) (l : list A) :
  (N.of_nat (length l) <= n)%N -> prefix_N n l = l.
Proof.
  revert n. induction l as [|x l IH]; intros n H; [reflexivity|].
  cbn [prefix_N]. cbn [length] in H. destruct (N.eqb_spec n 0); [lia|].
  f_equal. apply IH. lia.
Qed.

Lemma capped_prefix data : capped data = prefix_N MAX_PDF_BYTES data.
Proof.
  unfold capped. destruct (N.ltb_spec MAX_PDF_BYTES (N.of_nat (length data)));
    [reflexivity|]. symmetry. now apply prefix_N_all.
Qed.

Lemma capped_app data extra :
  (MAX_PDF_BYTES <= N.of_nat (length data))%N -> capped (data ++ extra) = capped data.
Proof. intros H. rewrite !capped_prefix. now apply prefix_N_app. Qed.

Lemma capped_length data : (N.of_nat (length (capped data)) <= MAX_PDF_BYTES)%N.
Proof.
  rewrite capped_prefix. generalize MAX_PDF_BYTES. intros n. revert n.
  induction data as [|x l IH]; intros n; cbn [prefix_N length]; [lia|].
  destruct (N.eqb_spec n 0); [cbn; lia|]. cbn [length]. specialize (IH (N.pred n)). lia.
Qed.

(** X9.  [extract_text_from_pdf] looks at the first [MAX_PDF_BYTES] bytes
    (5 MB) only: what follows them changes nothing in the result, and the
    libraries are never given more. *)
Theorem extract_text_reads_first_5MB (libs : PdfLibraries) (lib : Tag)
    (data extra : bytes) (Hlen : (MAX_PDF_BYTES <= N.of_nat (length data))%N) :
  extract_text_from_pdf libs lib (data ++ extra) = extract_text_from_pdf libs lib data
  /\ (N.of_nat (length (capped (data ++ extra))) <= MAX_PDF_BYTES)%N
  /\ MAX_PDF_BYTES = 5242880%N.
Proof.
  split; [|split; [apply capped_length|reflexivity]].
  destruct data as [|b data]; [cbn in Hlen; unfold MAX_PDF_BYTES in Hlen; lia|].
  pose proof (capped_app (b :: data) extra Hlen) as E.
  unfold extract_text_from_pdf. cbn [app] in E |- *. cbv zeta. now rewrite E.
Qed.

Lemma large_document_length :
  (MAX_PDF_BYTES <= N.of_nat (length large_document))%N.
Proof.
  unfold large_document. rewrite repeat_length. rewrite N2Nat.id. apply N.le_refl.
Qed.

Lemma extract_text_reads_first_5MB_witness :
  (MAX_PDF_BYTES <= N.of_nat (length large_document))%N
  /\ extract_text_from_pdf failing_libs pdfplumber (large_document ++ ascii_bytes "Jane Doe")
     = extract_text_from_pdf failing_libs pdfplumber large_document.
Proof.
  split; [exact large_document_length|].
  exact (proj1 (extract_text_reads_first_5MB failing_libs pdfplumber large_document
                  (ascii_bytes "Jane Doe") large_document_length)).
Defined.

End Cap.

(** ** The profile of a successful parse *)

Section Profile.

Import ParserWords.

Context (libs : PdfLibraries) (self_library : Tag).

Lemma joined_text_stripped pages : stripped (joined_text pages).
Proof. apply strip_stripped. Qed.

Lemma yields_stripped o : stripped (yields o).
Proof. destruct o; [apply joined_text_stripped|exact I]. Qed.

(** What [extract_text_from_pdf] returns for bytes that are not empty: a
    stripped text, tagged ["none"] exactly when it is empty, and never the
    note ["empty_input"]. *)
Lemma extract_text_shape b bs :
  let r := extract_text_from_pdf libs self_library (b :: bs) in
  stripped r.1.1 /\ (r.1.2 = none <-> r.1.1 = []) /\ r.1.2 <> text_input
  /\ r.2 <> Some empty_input.
Proof.
  cbv zeta. rewrite extract_text_flat. cbv zeta.
  set (d := capped (b :: bs)).
  set (broke := bool_decide (self_library = pdfplumber)
                && structural_failure (pdfplumber_open libs d)).
  destruct (bool_decide (self_library = pdfplumber)
            && bool_decide (yields (pdfplumber_open libs d) <> [])) eqn:E1.
  { apply andb_prop in E1 as [_ E1]. apply bool_decide_eq_true in E1. cbn [fst snd].
    split; [apply yields_stripped|]. split; [split; [discriminate|contradiction]|].
    split; discriminate. }
  destruct ((bool_decide (self_library = PyPDF2) || broke)
            && bool_decide (yields (pypdf2_reader libs d) <> [])) eqn:E2.
  { apply andb_prop in E2 as [_ E2]. apply bool_decide_eq_true in E2. cbn [fst snd].
    split; [apply yields_stripped|].
    split; [split; [destruct broke; discriminate|contradiction]|].
    split; destruct broke; discriminate. }
  destruct (Nat.ltb_spec 30 (length (strip (decode_ignore d)))) as [L|L]; cbn [fst snd].
  - split; [apply strip_stripped|].
    split; [split; [discriminate|]|].
    + intros E. rewrite E in L. cbn in L. lia.
    + split; [discriminate|]. destruct broke; discriminate.
  - split; [exact I|]. split; [split; reflexivity|]. split; discriminate.
Qed.

(** X10.  The profile [parse_resume] returns on success.  Its text has no
    white space at either end and at least 40 characters,
    [total_text_length] is its length and the preview its first 500
    characters.  The library tag is never ["none"] and the note never
    ["empty_input"].  The tag ["text_input"] means that the text is the
    stripped [text] argument; any other tag means that the text, the tag and
    the note are those of [extract_text_from_pdf] on the bytes. *)
Theorem parse_resume_profile_invariants ex pdf_bytes text p
    (Hp : parse_resume libs self_library ex pdf_bytes text = Parsed_ok p) :
  40 <= length (raw_text p)
  /\ total_text_length p = length (raw_text p)
  /\ stripped (raw_text p)
  /\ raw_text_preview p = firstn 500 (raw_text p)
  /\ parsing_library p <> none
  /\ parsing_note p <> Some empty_input
  /\ (parsing_library p = text_input ->
        exists t, text = Some t /\ raw_text p = strip t)
  /\ (parsing_library p <> text_input ->
        exists data, pdf_bytes = Some data
          /\ extract_text_from_pdf libs self_library data
             = (raw_text p, parsing_library p, parsing_note p)).
Proof.
  unfold parse_resume in Hp.
  destruct (gathered_text libs self_library pdf_bytes text) as [[raw library] note] eqn:G.
  destruct (Nat.ltb_spec (length raw) 40) as [L|L]; [discriminate|].
  injection Hp as <-. cbn [raw_text total_text_length raw_text_preview parsing_library
                           parsing_note].
  split; [exact L|]. split; [reflexivity|].
  unfold gathered_text in G.
  assert (Hraw : raw <> []) by (intros ->; cbn in L; lia).
  destruct pdf_bytes as [[|b bs]|].
  - (* empty bytes *)
    destruct text as [[|c t]|]; injection G as <- <- <-;
      try (exfalso; apply Hraw; reflexivity).
    split; [apply strip_stripped|]. split; [reflexivity|]. split; [discriminate|].
    split; [discriminate|]. split; [intros _; now eexists|]. intros H; now destruct H.
  - pose proof (extract_text_shape b bs) as (S1 & S2 & S3 & S4). cbv zeta in *.
    destruct (extract_text_from_pdf libs self_library (b :: bs)) as [[xt xl] xn] eqn:X.
    cbn [fst snd] in S1, S2, S3, S4.
    destruct xt as [|x0 xt].
    + destruct text as [[|c t]|]; injection G as <- <- <-;
        try (exfalso; apply Hraw; reflexivity).
      split; [apply strip_stripped|]. split; [reflexivity|]. split; [discriminate|].
      split; [exact S4|]. split; [intros _; now eexists|]. intros H; now destruct H.
    + assert (G' : (strip (x0 :: xt), xl, xn) = (raw, library, note))
        by (destruct text as [[|c t]|]; exact G).
      injection G' as <- <- <-. rewrite (stripped_strip _ S1).
      split; [exact S1|]. split; [reflexivity|].
      split; [intros E; apply S2 in E; discriminate|].
      split; [exact S4|]. split; [intros E; contradiction|].
      intros _. exists (b :: bs). split; [reflexivity|exact X].
  - destruct text as [[|c t]|]; injection G as <- <- <-;
      try (exfalso; apply Hraw; reflexivity).
    split; [apply strip_stripped|]. split; [reflexivity|]. split; [discriminate|].
    split; [discriminate|]. split; [intros _; now eexists|]. intros H; now destruct H.
Qed.

End Profile.

Lemma parse_resume_profile_invariants_witness :
  exists p,
    parse_resume failing_libs pdfplumber no_extractors None (Some ParserWords.sample_resume)
    = Parsed_ok p
    /\ total_text_length p = length (raw_text p).
Proof.
  eexists. split; [vm_compute; reflexivity|].
  eapply (parse_resume_profile_invariants failing_libs pdfplumber no_extractors None
            (Some ParserWords.sample_resume)).
  vm_compute. reflexivity.
Defined.

(** ** Bounds on the years of experience *)

Section YearsBounds.






End YearsBounds.

(** ** Bounds on the competition record *)

Section HackathonBounds.

Lemma placed_total (found : list Achievement) :
  placed first found + placed second found + placed third found
  + placed finalist found + placed participant found = length found.
Proof.
  unfold placed. induction found as [|a found IH]; [reflexivity|].
  rewrite !filter_cons. cbn [length].
  destruct (placement a); repeat case_decide; try congruence; cbn [length]; lia.
Qed.

(** X12.  The record [extract_hackathon_wins] returns.  A keyword counts
    once however often it occurs, so there are at most five entries; each
    entry counts in exactly one tier, and never as a finalist; the score lies
    between the number of entries and ten times that number; a context holds
    at most 200 characters; and the score is 0 exactly when there is no
    experience. *)
Theorem hackathon_record_bounds (text : str) :
  let h := extract_hackathon_wins text in
  let wins := wins_breakdown h in
  total_hackathons h <= 5
  /\ length (achievements h) = total_hackathons h
  /\ n_first wins + n_second wins + n_third wins + n_participant wins = total_hackathons h
  /\ n_finalist wins = 0
  /\ total_hackathons h <= hackathon_score h <= 10 * total_hackathons h
  /\ Forall (fun a => length (context a) <= 200) (achievements h)
  /\ (hackathon_score h = 0 <-> has_hackathon_experience h = false).
Proof.
  cbv zeta. unfold extract_hackathon_wins.
  rewrite hackathon_loop. cbv zeta. cbn [app].
  fold (keyword_hits text).
  set (new := map (entry_of text) (keyword_hits text)).
  destruct (bump_counts new no_wins) as (H1 & H2 & H3 & H4 & H5).
  cbv zeta in H1, H2, H3, H4, H5.
  cbn [achievements total_hackathons wins_breakdown hackathon_score
       has_hackathon_experience].
  assert (Hfin : placed finalist new = 0).
  { unfold placed, new. clear. induction (keyword_hits text) as [|kw l IH]; [reflexivity|].
    cbn [map]. rewrite filter_cons. rewrite decide_False; [exact IH|].
    apply placement_of_spec. }
  pose proof (placed_total new) as Ht.
  rewrite H1, H2, H3, H4, H5, Hfin. rewrite Hfin in Ht.
  cbn [no_wins n_first n_second n_third n_finalist n_participant].
  assert (Hlen : length new <= 5).
  { unfold new, keyword_hits. rewrite length_map.
    pose proof (length_filter (fun kw => contains kw (lower text) = true) HACKATHON_KEYWORDS) as L.
    cbn [HACKATHON_KEYWORDS length] in L. exact L. }
  split; [exact Hlen|]. split; [reflexivity|]. split; [lia|]. split; [reflexivity|].
  split; [lia|]. split.
  - apply Forall_forall. intros a Ha. unfold new in Ha.
    apply list_elem_of_In, in_map_iff in Ha as (kw & <- & _).
    unfold entry_of. cbn [context]. rewrite length_firstn. lia.
  - split.
    + intros Hz. apply Nat.ltb_ge. lia.
    + intros Hz. apply Nat.ltb_ge in Hz. lia.
Qed.

End HackathonBounds.

(** ** Pieces of the patterns *)

Section Pieces.

Import ResumeFields.

Lemma rep_then_sound {A} (class : N -> bool) lo hi (k : str -> option A) s r :
  rep_then class lo hi k s = Some r ->
  exists run rest,
    s = run ++ rest /\ Forall (fun c => class c = true) run /\ lo <= length run
    /\ (forall h, hi = Some h -> length run <= h) /\ k rest = Some r.
Proof.
  revert lo hi. induction s as [|c t IH]; intros lo hi H; cbn [rep_then] in H.
  - destruct (Nat.eqb_spec lo 0) as [->|]; [|discriminate].
    exists [], []. repeat split; [constructor|lia|intros; cbn; lia|exact H].
  - assert (Stop : (if Nat.eqb lo 0 then k (c :: t) else None) = Some r ->
                   exists run rest, c :: t = run ++ rest
                     /\ Forall (fun c => class c = true) run /\ lo <= length run
                     /\ (forall h, hi = Some h -> length run <= h) /\ k rest = Some r).
    { intros S. destruct (Nat.eqb_spec lo 0) as [->|]; [|discriminate].
      exists [], (c :: t). repeat split; [constructor|lia|intros; cbn; lia|exact S]. }
    destruct (class c) eqn:Hc; [|now apply Stop].
    destruct (bool_decide (hi = Some 0)) eqn:Hh; [now apply Stop|]. cbn [andb negb] in H.
    destruct (rep_then class (Nat.pred lo) (option_map Nat.pred hi) k t) as [r'|] eqn:R;
      [|now apply Stop].
    injection H as ->. apply IH in R as (run & rest & -> & Hrun & Hlo & Hhi & Hk).
    exists (c :: run), rest. split; [reflexivity|]. split; [now constructor|].
    split; [cbn [length]; lia|]. split; [|exact Hk].
    intros h ->. apply bool_decide_eq_false in Hh.
    destruct h as [|h]; [congruence|]. specialize (Hhi h eq_refl). cbn [length]. lia.
Qed.

Lemma matched_app (m rest : str) : matched (m ++ rest) rest = m.
Proof.
  unfold matched. rewrite length_app.
  replace (length m + length rest - length rest) with (length m) by lia.
  now rewrite firstn_app, Nat.sub_diag, firstn_all, app_nil_r.
Qed.

Lemma re_search_Some {R} (pattern : option N -> str -> option R) before s r :
  re_search pattern before s = Some r ->
  exists pre post, s = pre ++ post /\ pattern (last_or before pre) post = Some r.
Proof.
  revert before. induction s as [|c t IH]; intros before H; cbn [re_search] in H.
  - destruct (pattern before []) eqn:P; [|discriminate]. injection H as ->.
    now exists [], [].
  - destruct (pattern before (c :: t)) eqn:P.
    + injection H as ->. now exists [], (c :: t).
    + apply IH in H as (pre & post & -> & H). exists (c :: pre), post.
      split; [reflexivity|]. now rewrite last_or_cons.
Qed.

Lemma re_search_None {R} (pattern : option N -> str -> option R) before s :
  re_search pattern before s = None ->
  forall pre post, s = pre ++ post -> pattern (last_or before pre) post = None.
Proof.
  revert before. induction s as [|c t IH]; intros before H pre post E; cbn [re_search] in H.
  - destruct (pattern before []) eqn:P; [discriminate|].
    destruct pre; [|discriminate]. cbn in E. now subst post.
  - destruct (pattern before (c :: t)) eqn:P; [discriminate|].
    destruct pre as [|c' pre].
    + cbn in E. now subst post.
    + cbn in E. injection E as <- ->. rewrite last_or_cons. now apply (IH (Some c) H).
Qed.

Lemma ilit_then_sound {A} (w : str) (k : str -> option A) s r :
  ilit_then w k s = Some r ->
  exists m rest, s = m ++ rest /\ Forall2 (fun p c => ci_char p c = true) w m
                 /\ k rest = Some r.
Proof.
  revert s. induction w as [|p w IH]; intros s H; cbn [ilit_then] in H.
  - exists [], s. repeat split; [constructor|exact H].
  - destruct s as [|c t]; [discriminate|]. destruct (ci_char p c) eqn:Hc; [|discriminate].
    apply IH in H as (m & rest & -> & Hm & Hk). exists (c :: m), rest.
    split; [reflexivity|]. split; [now constructor|exact Hk].
Qed.

Lemma ilit_then_complete {A} (w : str) (k : str -> option A) m rest :
  Forall2 (fun p c => ci_char p c = true) w m -> ilit_then w k (m ++ rest) = k rest.
Proof.
  induction 1 as [|p c w m Hc _ IH]; [reflexivity|]. cbn [app ilit_then]. now rewrite Hc.
Qed.

End Pieces.

(** ** Roles *)

Section Roles.

Import ResumeFields.

Lemma extract_roles_filter text :
  extract_roles text = filter (fun role => role_found (lower text) role = true) ROLE_NAMES.
Proof.
  unfold extract_roles, role_found. cbv zeta.
  pose (hit := existsb (fun pat : str => contains pat (lower text))).
  change (existsb (fun pat : str => contains pat (lower text))) with hit.
  clearbody hit. unfold ROLE_PATTERNS, ROLE_NAMES. cbn [fold_left].
  rewrite !filter_cons, filter_nil. cbn [existsb].
  repeat match goal with
         | |- context [hit ?l] => let b := fresh "b" in
                                  generalize (hit l); intros b
         end.
  repeat match goal with b : bool |- _ => destruct b end; vm_compute; reflexivity.
Qed.

(** X13.  [extract_roles] returns the roles of [ROLE_PATTERNS] one of whose
    patterns occurs in the lowered text, each once and in alphabetical
    order: the result is a sub-list of backend, devops, frontend, fullstack,
    ml_engineer. *)
Theorem extract_roles_alphabetical (text : str) :
  extract_roles text `sublist_of` ROLE_NAMES
  /\ forall role,
       role ∈ extract_roles text <->
       exists pats pat, (role, pats) ∈ ROLE_PATTERNS /\ pat ∈ pats
                        /\ contains pat (lower text) = true.
Proof.
  rewrite extract_roles_filter. split; [apply sublist_filter|].
  intros role. rewrite list_elem_of_filter. unfold role_found. split.
  - intros [H _]. apply existsb_exists in H as ([r pats] & Hin & H).
    apply andb_prop in H as [Hr H]. apply bool_decide_eq_true in Hr. subst r.
    apply existsb_exists in H as (pat & Hp & H).
    exists pats, pat. split; [now apply list_elem_of_In|]. split; [now apply list_elem_of_In|exact H].
  - intros (pats & pat & Hin & Hp & H). split.
    + apply existsb_exists. exists (role, pats). split; [now apply list_elem_of_In|].
      rewrite bool_decide_eq_true_2 by reflexivity. cbn [andb].
      apply existsb_exists. exists pat. split; [now apply list_elem_of_In|exact H].
    + unfold ROLE_PATTERNS in Hin.
      repeat (apply elem_of_cons in Hin as [Hin|Hin];
              [injection Hin as -> _; unfold ROLE_NAMES; set_unfold; tauto|]).
      now apply elem_of_nil in Hin.
Qed.

End Roles.

(** ** Sorted lists of strings *)

Section SortedStrings.

Import ResumeFields.

Lemma str_ltb_irrefl a : str_ltb a a = false.
Proof.
  induction a as [|x a IH]; [reflexivity|]. cbn [str_ltb].
  now rewrite N.ltb_irrefl, N.eqb_refl, IH.
Qed.

Lemma str_ltb_total a b : str_ltb a b = false -> str_ltb b a = false -> a = b.
Proof.
  revert b. induction a as [|x a IH]; intros [|y b]; cbn [str_ltb]; try discriminate;
    [reflexivity|].
  intros H1 H2. apply orb_false_elim in H1 as [L1 E1]. apply orb_false_elim in H2 as [L2 E2].
  apply N.ltb_ge in L1, L2. assert (x = y) as -> by lia.
  rewrite N.eqb_refl in E1, E2. cbn [andb] in E1, E2. f_equal. now apply IH.
Qed.

Lemma str_ltb_trans a b c : str_ltb a b = true -> str_ltb b c = true -> str_ltb a c = true.
Proof.
  revert b c. induction a as [|x a IH]; intros [|y b] [|z c]; cbn [str_ltb];
    try discriminate; try reflexivity.
  intros H1 H2. apply orb_prop in H1, H2. apply orb_true_intro.
  destruct H1 as [H1|H1], H2 as [H2|H2].
  - left. apply N.ltb_lt in H1, H2. apply N.ltb_lt. lia.
  - apply andb_prop in H2 as [E _]. apply N.eqb_eq in E. subst z. now left.
  - apply andb_prop in H1 as [E _]. apply N.eqb_eq in E. subst y. now left.
  - apply andb_prop in H1 as [E1 H1]. apply andb_prop in H2 as [E2 H2].
    apply N.eqb_eq in E1, E2. subst y z. right. rewrite N.eqb_refl. cbn [andb].
    now apply (IH b c).
Qed.

Lemma insert_sorted_In x l z : In z (insert_sorted x l) <-> z = x \/ In z l.
Proof.
  induction l as [|y l IH]; cbn [insert_sorted].
  - cbn. intuition.
  - destruct (str_ltb x y) eqn:L1; [cbn; intuition|].
    destruct (str_ltb y x) eqn:L2.
    + cbn [In]. rewrite IH. intuition.
    + pose proof (str_ltb_total x y L1 L2) as ->. cbn. intuition.
Qed.

Lemma insert_sorted_increasing x l : increasing l -> increasing (insert_sorted x l).
Proof.
  unfold increasing. induction 1 as [|y l Hs IH Hy]; cbn [insert_sorted].
  - repeat constructor.
  - destruct (str_ltb x y) eqn:L1.
    + constructor; [now constructor|]. constructor; [exact L1|].
      eapply Forall_impl; [exact Hy|]. intros z Hz. cbn beta in Hz.
      now apply (str_ltb_trans x y z).
    + destruct (str_ltb y x) eqn:L2; [|now constructor].
      constructor; [exact IH|]. apply Forall_forall. intros z Hz.
      apply list_elem_of_In, insert_sorted_In in Hz as [->|Hz]; [exact L2|].
      rewrite Forall_forall in Hy. apply Hy. now apply list_elem_of_In.
Qed.

Lemma sorted_set_In l z : In z (sorted_set l) <-> In z l.
Proof.
  unfold sorted_set. induction l as [|x l IH]; cbn [fold_right]; [reflexivity|].
  rewrite insert_sorted_In, IH. cbn. intuition.
Qed.

Lemma sorted_set_increasing l : increasing (sorted_set l).
Proof.
  unfold sorted_set. induction l as [|x l IH]; cbn [fold_right]; [constructor|].
  now apply insert_sorted_increasing.
Qed.

Lemma increasing_NoDup l : increasing l -> NoDup l.
Proof.
  induction 1 as [|y l Hs IH Hy]; [constructor|]. constructor; [|exact IH].
  intros Hin. rewrite Forall_forall in Hy. apply Hy in Hin.
  now rewrite str_ltb_irrefl in Hin.
Qed.

Lemma sorted_elem (v : gset str) c : c ∈ sorted v <-> c ∈ v.
Proof.
  unfold sorted. rewrite <- elem_of_elements.
  split; intros H; apply list_elem_of_In; apply list_elem_of_In in H;
    now apply sorted_set_In.
Qed.

Lemma sorted_nil (v : gset str) : sorted v = [] <-> v = ∅.
Proof.
  split.
  - intros H. apply set_eq. intros c. rewrite <- sorted_elem, H.
    split; intros E; [now apply elem_of_nil in E|now apply elem_of_empty in E].
  - intros ->. reflexivity.
Qed.

End SortedStrings.

(** ** Skills *)

Section Skills.

Import ResumeFields.

Lemma found_add_keys cat c found :
  map fst (found_add cat c found)
  = if bool_decide (cat ∈ map fst found) then map fst found else map fst found ++ [cat].
Proof.
  induction found as [|[k v] found IH]; cbn [found_add map fst].
  - rewrite bool_decide_eq_false_2; [reflexivity|]. intros H; now apply elem_of_nil in H.
  - destruct (bool_decide (k = cat)) eqn:E.
    + apply bool_decide_eq_true in E. subst k. cbn [map fst].
      rewrite bool_decide_eq_true_2; [reflexivity|apply list_elem_of_here].
    + apply bool_decide_eq_false in E. cbn [map fst]. rewrite IH.
      destruct (bool_decide (cat ∈ map fst found)) eqn:M.
      * apply bool_decide_eq_true in M.
        rewrite bool_decide_eq_true_2; [reflexivity|now apply list_elem_of_further].
      * apply bool_decide_eq_false in M.
        rewrite bool_decide_eq_false_2; [reflexivity|].
        intros H. apply elem_of_cons in H as [H|H]; [congruence|contradiction].
Qed.

Lemma found_add_elem cat c found k v :
  NoDup (map fst found) ->
  (k, v) ∈ found_add cat c found ->
  (k <> cat /\ (k, v) ∈ found)
  \/ (k = cat /\ ((exists v0, (cat, v0) ∈ found /\ v = {[c]} ∪ v0)
                 \/ ((cat ∉ map fst found) /\ v = {[c]}))).
Proof.
  induction found as [|[k0 v0] found IH]; cbn [found_add map fst]; intros Hn.
  - intros H. apply list_elem_of_singleton in H. injection H as -> ->.
    right. split; [reflexivity|]. right. split; [|reflexivity].
    intros H; now apply elem_of_nil in H.
  - apply NoDup_cons in Hn as [Hk0 Hn].
    destruct (bool_decide (k0 = cat)) eqn:E.
    + apply bool_decide_eq_true in E. subst k0. intros H.
      apply elem_of_cons in H as [H|H].
      * injection H as -> ->. right. split; [reflexivity|]. left.
        exists v0. split; [apply list_elem_of_here|reflexivity].
      * left. split; [|now apply list_elem_of_further].
        intros ->. apply Hk0. apply list_elem_of_In, in_map_iff.
        exists (cat, v). split; [reflexivity|now apply list_elem_of_In].
    + apply bool_decide_eq_false in E. intros H. apply elem_of_cons in H as [H|H].
      * injection H as -> ->. left. split; [exact E|apply list_elem_of_here].
      * apply (IH Hn) in H as [[Hk H]|[-> [(v1 & H & ->)|[Hm ->]]]].
        -- left. split; [exact Hk|now apply list_elem_of_further].
        -- right. split; [reflexivity|]. left. exists v1.
           split; [now apply list_elem_of_further|reflexivity].
        -- right. split; [reflexivity|]. right. split; [|reflexivity].
           intros H. apply elem_of_cons in H as [H|H]; [congruence|contradiction].
Qed.

Lemma found_add_other cat c found k v :
  k <> cat -> (k, v) ∈ found -> (k, v) ∈ found_add cat c found.
Proof.
  intros Hk. induction found as [|[k0 v0] found IH]; cbn [found_add]; intros H.
  - now apply elem_of_nil in H.
  - apply elem_of_cons in H as [H|H].
    + injection H as <- <-. rewrite bool_decide_eq_false_2 by exact Hk.
      apply list_elem_of_here.
    + destruct (bool_decide (k0 = cat)); apply list_elem_of_further; [exact H|now apply IH].
Qed.

Lemma found_add_has cat c found : exists v, (cat, v) ∈ found_add cat c found /\ c ∈ v.
Proof.
  induction found as [|[k0 v0] found (v & IH & Hc)]; cbn [found_add].
  - exists {[c]}. split; [apply list_elem_of_here|now apply elem_of_singleton].
  - destruct (bool_decide (k0 = cat)) eqn:E.
    + apply bool_decide_eq_true in E. subst k0. exists ({[c]} ∪ v0).
      split; [apply list_elem_of_here|]. apply elem_of_union. left. now apply elem_of_singleton.
    + exists v. split; [now apply list_elem_of_further|exact Hc].
Qed.

Lemma found_add_NoDup cat c found :
  NoDup (map fst found) -> NoDup (map fst (found_add cat c found)).
Proof.
  intros H. rewrite found_add_keys. destruct (bool_decide _) eqn:E; [exact H|].
  apply bool_decide_eq_false in E. apply NoDup_app. split; [exact H|]. split.
  - intros x Hx Hc. apply list_elem_of_singleton in Hc. now subst x.
  - apply NoDup_singleton.
Qed.

Lemma found_unique (found : list (str * gset str)) k v1 v2 :
  NoDup (map fst found) -> (k, v1) ∈ found -> (k, v2) ∈ found -> v1 = v2.
Proof.
  induction found as [|[k0 v0] found IH]; cbn [map fst]; intros Hn H1 H2.
  - now apply elem_of_nil in H1.
  - apply NoDup_cons in Hn as [Hk0 Hn].
    assert (Hout : forall v, (k0, v) ∈ found -> False).
    { intros v Hv. apply Hk0. apply list_elem_of_In, in_map_iff.
      exists (k0, v). split; [reflexivity|now apply list_elem_of_In]. }
    apply elem_of_cons in H1 as [H1|H1], H2 as [H2|H2].
    + congruence.
    + injection H1 as -> ->. now apply Hout in H2.
    + injection H2 as -> ->. now apply Hout in H1.
    + now apply IH.
Qed.

(** The loop of [extract_skills] over the first entries [done] of the
    reverse map. *)
Lemma skills_loop text_lower (done : list (str * (str * str))) :
  let found :=
    fold_left (fun found '(syn, (canonical, cat)) =>
                 if skill_found syn text_lower then found_add cat canonical found
                 else found) done [] in
  NoDup (map fst found)
  /\ (forall cat v, (cat, v) ∈ found ->
        v <> ∅
        /\ forall c, c ∈ v <->
             exists syn, (syn, (c, cat)) ∈ done /\ skill_found syn text_lower = true)
  /\ (forall syn c cat, (syn, (c, cat)) ∈ done -> skill_found syn text_lower = true ->
        exists v, (cat, v) ∈ found).
Proof.
  cbv zeta. induction done as [|[syn [canonical cat]] done (Hn & Hv & Hh)] using rev_ind.
  - cbn [fold_left map]. split; [constructor|].
    split; [intros cat v H; now apply elem_of_nil in H|].
    intros syn c cat H; now apply elem_of_nil in H.
  - rewrite fold_left_app. cbn [fold_left].
    set (found := fold_left _ done []) in *.
    assert (Grow : forall c k, (exists s, (s, (c, k)) ∈ done /\ skill_found s text_lower = true)
                     -> exists s, (s, (c, k)) ∈ done ++ [(syn, (canonical, cat))]
                                  /\ skill_found s text_lower = true).
    { intros c k (s & Hs & Hf). exists s. split; [|exact Hf].
      apply elem_of_app. now left. }
    destruct (skill_found syn text_lower) eqn:F.
    + split; [now apply found_add_NoDup|]. split.
      * intros k v H. apply (found_add_elem _ _ _ _ _ Hn) in H
          as [[Hk H]|[-> [(v0 & H & ->)|[Hm ->]]]].
        -- destruct (Hv k v H) as [Hne Hiff]. split; [exact Hne|].
           intros c. rewrite Hiff. split; [apply Grow|].
           intros (s & Hs & Hf). apply elem_of_app in Hs as [Hs|Hs]; [now exists s|].
           apply list_elem_of_singleton in Hs. congruence.
        -- destruct (Hv cat v0 H) as [Hne Hiff]. split.
           { intros E. assert (Hc : canonical ∈ ({[canonical]} ∪ v0 : gset str))
               by (apply elem_of_union; left; now apply elem_of_singleton).
             rewrite E in Hc. now apply elem_of_empty in Hc. }
           intros c. rewrite elem_of_union, elem_of_singleton, Hiff. split.
           ++ intros [->|H']; [|now apply Grow].
              exists syn. split; [|exact F]. apply elem_of_app. right.
              apply list_elem_of_here.
           ++ intros (s & Hs & Hf). apply elem_of_app in Hs as [Hs|Hs]; [right; now exists s|].
              apply list_elem_of_singleton in Hs. injection Hs as -> ->. now left.
        -- split.
           { intros E. assert (Hc : canonical ∈ ({[canonical]} : gset str))
               by now apply elem_of_singleton.
             rewrite E in Hc. now apply elem_of_empty in Hc. }
           intros c. rewrite elem_of_singleton. split.
           ++ intros ->. exists syn. split; [|exact F]. apply elem_of_app. right.
              apply list_elem_of_here.
           ++ intros (s & Hs & Hf). apply elem_of_app in Hs as [Hs|Hs].
              ** exfalso. destruct (Hh s c cat Hs Hf) as (v & Hin). apply Hm.
                 apply list_elem_of_In, in_map_iff. exists (cat, v).
                 split; [reflexivity|now apply list_elem_of_In].
              ** apply list_elem_of_singleton in Hs. now injection Hs as -> ->.
      * intros s c k Hs Hf. apply elem_of_app in Hs as [Hs|Hs].
        -- destruct (Hh s c k Hs Hf) as (v & Hin).
           destruct (decide (k = cat)) as [->|Hk].
           ++ destruct (found_add_has cat canonical found) as (v' & H' & _). now exists v'.
           ++ exists v. now apply found_add_other.
        -- apply list_elem_of_singleton in Hs. injection Hs as -> -> ->.
           destruct (found_add_has cat canonical found) as (v' & H' & _). now exists v'.
    + split; [exact Hn|]. split.
      * intros k v H. destruct (Hv k v H) as [Hne Hiff]. split; [exact Hne|].
        intros c. rewrite Hiff. split; [apply Grow|].
        intros (s & Hs & Hf). apply elem_of_app in Hs as [Hs|Hs]; [now exists s|].
        apply list_elem_of_singleton in Hs. congruence.
      * intros s c k Hs Hf. apply elem_of_app in Hs as [Hs|Hs]; [now apply (Hh s c k)|].
        apply list_elem_of_singleton in Hs. congruence.
Qed.

(** X14.  [extract_skills] returns each category at most once; the skills of
    a category are not empty and strictly increasing (sorted, none twice);
    and a skill is listed under a category exactly when one of its synonyms
    stands in the lowered text between word boundaries.  A category with such
    a skill is returned. *)
Theorem extract_skills_by_category (text : str) :
  let result := extract_skills text in
  NoDup (map fst result)
  /\ (forall cat skills, (cat, skills) ∈ result ->
        skills <> [] /\ increasing skills
        /\ forall c, c ∈ skills <-> skill_hit (lower text) cat c)
  /\ (forall cat c, skill_hit (lower text) cat c ->
        exists skills, (cat, skills) ∈ result /\ c ∈ skills).
Proof.
  cbv zeta. unfold extract_skills. cbv zeta.
  destruct (skills_loop (lower text) _skill_syn) as (Hn & Hv & Hh). cbv zeta in Hn, Hv, Hh.
  set (found := fold_left _ _skill_syn []) in *. clearbody found.
  unfold skill_hit. revert Hn Hv Hh. revert found. generalize _skill_syn.
  intros entries found Hn Hv Hh.
  split; [|split].
  - rewrite map_map.
    replace (map (fun x => fst (let '(k, v) := x in (k, sorted v))) found)
      with (map fst found); [exact Hn|].
    apply map_ext. now intros [k v].
  - intros cat skills H. apply list_elem_of_In, in_map_iff in H as ([k v] & E & H).
    injection E as -> <-. apply list_elem_of_In in H. destruct (Hv cat v H) as [Hne Hiff].
    split; [now rewrite sorted_nil|]. split; [apply sorted_set_increasing|].
    intros c. rewrite sorted_elem. apply Hiff.
  - intros cat c (syn & Hs & Hf). destruct (Hh syn c cat Hs Hf) as (v & Hin).
    exists (sorted v). split.
    + apply list_elem_of_In, in_map_iff. exists (cat, v). split; [reflexivity|now apply list_elem_of_In].
    + apply sorted_elem. apply (Hv cat v Hin). now exists syn.
Qed.

End Skills.

(** ** The upload route *)

Section UploadRoute.

Import MatchRoute.

Local Open Scope float_scope.

(** Looking a key up in a dict display. *)
Ltac dict_lookup :=
  unfold get, dict_of, item; cbn [fold_left fst snd];
  repeat first
    [ rewrite lookup_insert_ne by (let E := fresh in intros E; vm_compute in E; discriminate E)
    | rewrite lookup_insert_eq ];
  rewrite ?lookup_empty.

Context (wrapper : MatchingEngineWrapper).

Lemma default_embedding_cons : exists x v, default_embedding = x :: v.
Proof. now eexists _, _. Qed.

Lemma project_embedding_cons p : exists x v, project_embedding wrapper p = x :: v.
Proof.
  unfold project_embedding. destruct (row_embedding p) as [[|x v]|]; [|now eexists _, _|].
  - destruct (ensure_embedding _ _ _) as [|x v]; [apply default_embedding_cons|now eexists _, _].
  - destruct (ensure_embedding _ _ _) as [|x v]; [apply default_embedding_cons|now eexists _, _].
Qed.

Lemma user_data_of_profile parsed :
  exists x v,
    user_embedding wrapper parsed = x :: v
    /\ user_data_of (user_profile wrapper parsed)
       = Some {| skills := cleaned (all_skills parsed);
                 embedding := Some (x :: v);
                 roles := cleaned (match p_roles parsed with
                                   | [] => [lit "developer"]
                                   | r => r
                                   end);
                 experience_years := Z.of_N (p_experience_years parsed);
                 timezone := None;
                 bio := lit "Resume with "
                        ++ str_of_int (Z.of_nat (length (all_skills parsed)))
                        ++ lit " skills";
                 hackathons := None |}.
Proof.
  unfold user_embedding, user_data_of, user_profile. cbv zeta.
  set (e := match ensure_embedding _ _ _ with [] => default_embedding | _ => _ end).
  assert (He : exists x v, e = x :: v).
  { unfold e. destruct (ensure_embedding _ _ _) as [|x v];
      [apply default_embedding_cons|now eexists _, _]. }
  destruct He as (x & v & He). exists x, v.
  dict_lookup. cbn [as_embedding as_text]. rewrite He. split; reflexivity.
Qed.

Lemma project_data_of_candidate p :
  project_data_of (candidate wrapper p)
  = Some {| p_id := Some (str_of_int (row_id p));
            required_skills := [];
            p_embedding := Some (project_embedding wrapper p);
            required_roles := [];
            min_experience := or_int (row_min_experience p) 0;
            max_experience := or_int (row_max_experience p) 10;
            p_timezone := row_timezone p |}.
Proof.
  unfold project_data_of, candidate. dict_lookup.
  cbn [as_embedding py_str]. destruct (row_timezone p); reflexivity.
Qed.

(** The match of the user of an upload with one project. *)
Lemma upload_match parsed p :
  match_user_to_project_dicts (user_profile wrapper parsed) (candidate wrapper p)
  = Some {|
      target_id := str_of_int (row_id p);
      score :=
        py_max 0 (py_min 1
          (weighted_sum WEIGHTS 0.5
             (calculate_embedding_score (Some (user_embedding wrapper parsed))
                (Some (project_embedding wrapper p)))
             1
             (calculate_experience_fit (Z.of_N (p_experience_years parsed))
                (or_int (row_min_experience p) 0) (or_int (row_max_experience p) 10))
             1
           + py_min (of_nat 0 * 0.02) 0.12));
      reasons :=
        if 0.7 <? calculate_embedding_score (Some (user_embedding wrapper parsed))
                    (Some (project_embedding wrapper p))
        then [ProfileSimilarity
                (calculate_embedding_score (Some (user_embedding wrapper parsed))
                   (Some (project_embedding wrapper p)))]
        else [];
      shared_skills := [];
      complementary_skills := [] |}.
Proof.
  unfold match_user_to_project_dicts.
  destruct (user_data_of_profile parsed) as (x & v & Hu & ->).
  rewrite project_data_of_candidate, Hu.
  destruct (project_embedding_cons p) as (y & w & Hp). rewrite Hp.
  unfold match_user_to_project, match_with.
  cbn [skills required_skills calculate_skill_overlap roles required_roles
       calculate_role_match embedding p_embedding truthy_list andb
       experience_years min_experience max_experience timezone p_timezone
       calculate_availability_score truthy_str negb orb p_id length].
  unfold build_reasons. cbn [length Nat.ltb Nat.leb app].
  change (of_nat 0) with 0 at 2. rewrite py_max_one_positive. reflexivity.
Qed.

(** X15.  On the upload route the project is handed to the matcher as a
    dict whose skills and roles stand under the keys ["skills"] and
    ["roles"], while the matcher reads ["required_skills"] and
    ["required_roles"]; and the user has no time zone.  So for every parsed
    resume and every project the match is defined, it has no shared and no
    complementary skill, its only possible reason is the profile similarity,
    and its score is that of a skill sub-score 0.5, a role sub-score 1.0 and
    an availability 1.0: the skills of the resume and of the project enter it
    through the embeddings only. *)
Theorem upload_match_ignores_skills (parsed : Profile) (p : ProjectRow) :
  let emb := calculate_embedding_score (Some (user_embedding wrapper parsed))
               (Some (project_embedding wrapper p)) in
  let exp := calculate_experience_fit (Z.of_N (p_experience_years parsed))
               (or_int (row_min_experience p) 0) (or_int (row_max_experience p) 10) in
  candidate wrapper p !! lit "required_skills" = None
  /\ candidate wrapper p !! lit "required_roles" = None
  /\ candidate wrapper p !! lit "skills"
     = Some (VList (req_list (row_required_skills p)))
  /\ user_profile wrapper parsed !! lit "timezone" = Some VNone
  /\ exists m,
       match_user_to_project_dicts (user_profile wrapper parsed) (candidate wrapper p)
       = Some m
       /\ shared_skills m = [] /\ complementary_skills m = []
       /\ target_id m = str_of_int (row_id p)
       /\ score m = py_max 0 (py_min 1 (weighted_sum WEIGHTS 0.5 emb 1 exp 1 + 0))
       /\ (forall r, r ∈ reasons m -> r = ProfileSimilarity emb /\ (0.7 <? emb) = true).
Proof.
  cbv zeta.
  split; [unfold candidate; now dict_lookup|].
  split; [unfold candidate; now dict_lookup|].
  split; [unfold candidate; now dict_lookup|].
  split; [unfold user_profile; cbv zeta; now dict_lookup|].
  eexists. split; [apply upload_match|]. cbn [shared_skills complementary_skills target_id
                                               score reasons].
  split; [reflexivity|]. split; [reflexivity|]. split; [reflexivity|]. split; [reflexivity|].
  intros r Hr. destruct (0.7 <? _) eqn:E; [|now apply elem_of_nil in Hr].
  apply list_elem_of_singleton in Hr. now split.
Qed.

Lemma all_matches_defined parsed projects :
  exists ms,
    all_matches (user_profile wrapper parsed) (map (candidate wrapper) projects) = Some ms
    /\ length ms = length projects
    /\ Forall (fun m => shared_skills m = [] /\ complementary_skills m = []
                        /\ exists p, p ∈ projects /\ target_id m = str_of_int (row_id p)) ms.
Proof.
  induction projects as [|p projects (ms & E & L & F)].
  - exists []. repeat split. constructor.
  - cbn [map all_matches]. rewrite upload_match, E. eexists. split; [reflexivity|].
    split; [cbn [length]; now rewrite L|]. constructor.
    + cbn [shared_skills complementary_skills target_id]. split; [reflexivity|].
      split; [reflexivity|]. exists p. split; [apply list_elem_of_here|reflexivity].
    + eapply Forall_impl; [exact F|]. intros m (H1 & H2 & q & Hq & H3).
      split; [exact H1|]. split; [exact H2|]. exists q.
      split; [now apply list_elem_of_further|exact H3].
Qed.

End UploadRoute.

Section UploadOutcome.

Import MatchRoute.

Context (libs : PdfLibraries) (self_library : Tag) (ex : Extractors).

(** X16.  What the upload route comes to, for every file, table of projects
    and [top_k].  An empty file gives 400, a file of more than
    [MAX_PDF_BYTES] bytes 413, a file that does not parse 422 (even when
    there is no project), no project 404, and a matcher whose engine could not
    be loaded 500, in this order.  Otherwise there are ranked matches: never
    more than projects, exactly [min(top_k, projects)] of them for a
    [top_k >= 0], each for one of the projects and none with a shared or a
    complementary skill.  The file the parser is given is never truncated. *)
Theorem upload_outcome_cases (wrapper : MatchingEngineWrapper) (content : bytes)
    (projects : list ProjectRow) (top_k : Z) :
  exists o,
    upload_and_match_resume libs self_library ex wrapper content projects top_k = Some o
    /\ match o with
       | HTTPException status_code =>
           (status_code = 400 /\ content = [])
           \/ (status_code = 413 /\ (MAX_PDF_BYTES < N.of_nat (length content))%N)
           \/ (content <> [] /\ (N.of_nat (length content) <= MAX_PDF_BYTES)%N
               /\ ((status_code = 422
                    /\ is_error (parse_resume libs self_library ex (Some content) None) = true)
                   \/ (is_error (parse_resume libs self_library ex (Some content) None) = false
                       /\ ((status_code = 404 /\ projects = [])
                           \/ (status_code = 500 /\ projects <> [] /\ wrapper = None)))))
       | Ranked parsed ranked_matches =>
           parse_resume libs self_library ex (Some content) None = Parsed_ok parsed
           /\ capped content = content
           /\ projects <> [] /\ wrapper <> None
           /\ length ranked_matches <= length projects
           /\ ((0 <= top_k)%Z ->
               length ranked_matches = Nat.min (Z.to_nat top_k) (length projects))
           /\ Forall (fun m => shared_skills m = [] /\ complementary_skills m = []
                               /\ exists p, p ∈ projects
                                            /\ target_id m = str_of_int (row_id p))
                     ranked_matches
       end.
Proof.
  unfold upload_and_match_resume.
  destruct content as [|b content]; [eexists; split; [reflexivity|]; now left|].
  cbv beta iota.
  destruct (N.ltb_spec MAX_PDF_BYTES (N.of_nat (length (b :: content)))) as [L|L].
  { eexists; split; [reflexivity|]. right; left. now split. }
  destruct (parse_resume _ _ _ _ _) as [f|parsed] eqn:P.
  { eexists; split; [reflexivity|]. right; right.
    split; [discriminate|]. split; [exact L|]. left. now split. }
  destruct projects as [|p projects]; cbv beta iota.
  { eexists; split; [reflexivity|]. right; right.
    split; [discriminate|]. split; [exact L|]. right. split; [reflexivity|]. left. now split. }
  destruct wrapper as [engine|]; cbv beta iota.
  2:{ eexists; split; [reflexivity|]. right; right.
      split; [discriminate|]. split; [exact L|]. right. split; [reflexivity|]. right.
      split; [reflexivity|]. split; [discriminate|reflexivity]. }
  destruct (all_matches_defined (Some engine) parsed (p :: projects)) as (ms & E & Hl & F).
  rewrite E. eexists; split; [reflexivity|].
  split; [reflexivity|].
  split. { unfold capped. destruct (N.ltb_spec MAX_PDF_BYTES (N.of_nat (length (b :: content))));
           [lia|reflexivity]. }
  split; [discriminate|]. split; [discriminate|].
  assert (Hs : length (sort_desc ms) = length (p :: projects))
    by (now rewrite sort_desc_length).
  assert (Fs : Forall (fun m => shared_skills m = [] /\ complementary_skills m = []
                        /\ exists q, q ∈ p :: projects /\ target_id m = str_of_int (row_id q))
                 (sort_desc ms)).
  { eapply Permutation_Forall; [|exact F]. symmetry. apply sort_desc_perm. }
  unfold slice_to.
  split; [|split].
  - destruct (top_k <? 0)%Z; rewrite length_firstn; lia.
  - intros Hk. destruct (Z.ltb_spec top_k 0); [lia|]. rewrite length_firstn. lia.
  - destruct (top_k <? 0)%Z; now apply Forall_take.
Qed.

End UploadOutcome.
